(** Verification of the snapshot-diff analysis engine of PTEO-Shift-Report
    ([src/streamlit_app.py], class [LotTrackingDashboard]) and of the
    attendance console ([src/attendance_console.py]).

    A pandas DataFrame is modelled as its column names, the names of its
    columns of numeric dtype, and an ordered list of rows; a row maps
    column names to cells, a column the row does not carry reads as a null
    cell (pandas fills it with NaN).  A Python [str] is a Rocq [string]
    whose characters are the code points 0-255 (Latin-1); the text
    functions below follow Python on that range. *)

From Stdlib Require Import List String Ascii ZArith QArith Bool Lia Permutation.
Import ListNotations.
Open Scope string_scope.

(** * Cells, rows and frames *)

(** A spreadsheet cell as pandas holds it: NaN/None, text, or a number
    (gspread returns integers and floats for numeric-looking cells). *)
Inductive cell : Type :=
| Null
| Str (s : string)
| Num (q : Q).

(** Python [==] on cells: numbers compare by value ([1 == 1.0]). *)
Definition cell_eqb (a b : cell) : bool :=
  match a, b with
  | Null, Null => true
  | Str s, Str t => String.eqb s t
  | Num p, Num q => Qeq_bool p q
  | _, _ => false
  end.

Definition is_text (c : cell) : bool := match c with Str _ => true | _ => false end.

Definition is_number (c : cell) : bool := match c with Num _ => true | _ => false end.

Definition row := list (string * cell).

(** [numeric_columns] are the columns of dtype int64 or float64; every
    other column has dtype object.  A row selection keeps the dtypes. *)
Record frame := mkFrame {
  columns : list string;
  numeric_columns : list string;
  rows : list row
}.

Fixpoint get (r : row) (c : string) : cell :=
  match r with
  | [] => Null
  | (k, v) :: t => if String.eqb k c then v else get t c
  end.

(** [c in df.columns] *)
Definition has_col (df : frame) (c : string) : bool :=
  existsb (String.eqb c) (columns df).

(** [df[mask]]: the rows [rs] of [df], with its columns and dtypes. *)
Definition select_frame (df : frame) (rs : list row) : frame :=
  mkFrame (columns df) (numeric_columns df) rs.

(** The dtype [pd.DataFrame(records)] infers for column [c]: numeric when
    the column holds a number and no text (a missing cell becomes NaN),
    object otherwise (a column of text, of text and numbers, or of nulls
    only). *)
Definition numeric_column (rs : list row) (c : string) : bool :=
  negb (existsb (fun r => is_text (get r c)) rs) && existsb (fun r => is_number (get r c)) rs.

(** [pd.DataFrame(sheet.get_all_records())] for a sheet with header
    [cols] and records [rs]. *)
Definition sheet_frame (cols : list string) (rs : list row) : frame :=
  mkFrame cols (filter (numeric_column rs) cols) rs.

(** Whether [df[c].str] exists.  pandas refuses the accessor with
    [AttributeError] on a numeric column, and on an object column whose
    non-null values ([lib.infer_dtype(..., skipna=True)]) are numbers
    without any text; text alone, text mixed with numbers, nulls only and
    no value at all are accepted. *)
Definition str_accessor_ok (df : frame) (c : string) : bool :=
  negb (existsb (String.eqb c) (numeric_columns df)) &&
  (existsb (fun r => is_text (get r c)) (rows df) ||
   negb (existsb (fun r => is_number (get r c)) (rows df))).

(** Python membership [x in s] for a set or list of cells. *)
Fixpoint memb (x : cell) (l : list cell) : bool :=
  match l with
  | [] => false
  | y :: t => cell_eqb x y || memb x t
  end.

(** [set(l)]: one representative per equal class (order is irrelevant to
    every use below, which only tests membership). *)
Fixpoint to_set (l : list cell) : list cell :=
  match l with
  | [] => []
  | x :: t => if memb x t then to_set t else x :: to_set t
  end.

(** * Case-insensitive substring search ([str.contains(..., case=False)]) *)

(** [str.upper()] on one character: the Latin-1 lower-case letters.  The
    three characters whose upper case leaves the Latin-1 range or has two
    characters (micro sign, sharp s, y with diaeresis) are left as they
    are; none of the upper-cased texts compared below contains M, S or a
    non-ASCII character, so no comparison depends on them. *)
Definition upper_ascii (a : ascii) : ascii :=
  let n := nat_of_ascii a in
  if (Nat.leb 97 n && Nat.leb n 122) || (Nat.leb 224 n && Nat.leb n 254 && negb (Nat.eqb n 247))
  then ascii_of_nat (n - 32)%nat else a.

Fixpoint upper (s : string) : string :=
  match s with
  | EmptyString => EmptyString
  | String a t => String (upper_ascii a) (upper t)
  end.

Fixpoint is_prefix (p s : string) : bool :=
  match p, s with
  | EmptyString, _ => true
  | String _ _, EmptyString => false
  | String a p', String b s' => Ascii.eqb a b && is_prefix p' s'
  end.

Fixpoint contains (p s : string) : bool :=
  is_prefix p s ||
  match s with
  | EmptyString => false
  | String _ s' => contains p s'
  end.

(** A case-insensitive regex search of a literal alternative. *)
Definition contains_ci (p s : string) : bool := contains (upper p) (upper s).

(** [series.str.contains(alternatives, case=False, na=False)] on one cell
    of a series the [.str] accessor accepts: a non-string cell yields NaN,
    which [na=False] turns into [False]. *)
Definition cell_contains_any (pats : list string) (c : cell) : bool :=
  match c with
  | Str s => existsb (fun p => contains_ci p s) pats
  | _ => false
  end.

(** * [filter_critical_lots] *)

Definition LOT := "LOT NUMBER".
Definition SPLIT_MARKER := "ENGR-SPLIT LOW YIELD".

(** Regex ['Total|No filters applied'] on [df['Operation'].astype(str)];
    [astype(str)] renders NaN as ["nan"] and numbers as digits, neither of
    which matches, so only text cells can; the accessor always exists on
    the converted column. *)
Definition is_summary_row (r : row) : bool :=
  cell_contains_any ["Total"; "No filters applied"] (get r "Operation").

(** Regex ['NEAR DUE|EXPEDITE OVERDUE|OVERDUE'] on ['OTD STATUS']. *)
Definition otd_filter (r : row) : bool :=
  cell_contains_any ["NEAR DUE"; "EXPEDITE OVERDUE"; "OVERDUE"] (get r "OTD STATUS").

Definition split_filter (r : row) : bool :=
  cell_contains_any [SPLIT_MARKER] (get r "CATEGORY").

(** [None] is the [AttributeError] of [df['OTD STATUS'].str] or
    [df['CATEGORY'].str], raised on the frame left after the summary rows
    are dropped. *)
Definition filter_critical_lots (df : frame) : option frame :=
  if Nat.eqb (List.length (rows df)) 0 then Some df else
  let df := if has_col df "Operation"
            then select_frame df (filter (fun r => negb (is_summary_row r)) (rows df))
            else df in
  if has_col df "OTD STATUS" && negb (str_accessor_ok df "OTD STATUS") then None else
  if has_col df "CATEGORY" && negb (str_accessor_ok df "CATEGORY") then None else
  let filters := ((if has_col df "OTD STATUS" then [otd_filter] else [])
                 ++ (if has_col df "CATEGORY" then [split_filter] else []))%list in
  match filters with
  | [] => Some df
  | _ => Some (select_frame df (filter (fun r => existsb (fun f => f r) filters) (rows df)))
  end.

(** * Dashboard state and [analyze_processed_lots] *)

(** The attributes of a [LotTrackingDashboard].  [__init__] sets
    [processed_lots], [in_progress_lots] and [split_low_yield_lots] to
    empty lists; the four split/regular attributes only exist once an
    analysis assigns them ([None] while missing).  [self] and
    [st.session_state] hold the same snapshots, so one copy is kept;
    [analysis_complete] is the session-state flag. *)
Record dashboard := mkDashboard {
  before_shift_data : option frame;
  after_shift_data : option frame;
  processed_lots : list row;
  in_progress_lots : list row;
  processed_split_low_yield_lots : option (list row);
  processed_regular_lots : option (list row);
  in_progress_split_low_yield_lots : option (list row);
  in_progress_regular_lots : option (list row);
  split_low_yield_lots : list row;
  analysis_complete : bool
}.

(** [LotTrackingDashboard(url)] as [main] builds it on every run: the
    snapshots restored from the session state, the buckets empty. *)
Definition new_dashboard (before after : option frame) (complete : bool) : dashboard :=
  mkDashboard before after [] [] None None None None [] complete.

(** How a call of [analyze_processed_lots] ends: [st.warning], [st.error],
    the [AttributeError] of a [.str] accessor escaping the call, or a
    normal end with [analysis_complete = True]. *)
Inductive report : Type :=
| IncompleteSnapshots
| MissingKeyColumn
| AnalysisRaised
| AnalysisComplete.

(** [set(df['LOT NUMBER'].dropna())] *)
Definition lot_numbers (df : frame) : list cell :=
  to_set (filter (fun c => match c with Null => false | _ => true end)
                 (map (fun r => get r LOT) (rows df))).

(** The locals [processed_lot_numbers = before_lot_numbers -
    after_lot_numbers] and [in_progress_lot_numbers =
    before_lot_numbers.intersection(after_lot_numbers)]. *)
Definition processed_keys (before after : frame) : list cell :=
  filter (fun k => negb (memb k (lot_numbers after))) (lot_numbers before).

Definition in_progress_keys (before after : frame) : list cell :=
  filter (fun k => memb k (lot_numbers after)) (lot_numbers before).

(** [df[df['LOT NUMBER'].isin(keys)]] *)
Definition select_lots (df : frame) (keys : list cell) : list row :=
  filter (fun r => memb (get r LOT) keys) (rows df).

(** One bucket split by the category mask, as both branches of the source
    do; a bucket is a selection of the before snapshot [b], with its
    columns and dtypes.  [None] is the [AttributeError] of
    [lots['CATEGORY'].str]. *)
Definition split_bucket (b : frame) (lots : list row) : option (list row * list row) :=
  if negb (Nat.eqb (List.length lots) 0) && has_col b "CATEGORY" then
    if str_accessor_ok (select_frame b lots) "CATEGORY"
    then Some (filter split_filter lots, filter (fun r => negb (split_filter r)) lots)
    else None
  else Some ([], lots).

(** The attributes are assigned in the order of the source: the two row
    buckets, then the processed split, then the in-progress split; an
    exception leaves the assignments made before it. *)
Definition analyze_processed_lots (s : dashboard) : dashboard * report :=
  match before_shift_data s, after_shift_data s with
  | Some b, Some a =>
      if negb (has_col b LOT) || negb (has_col a LOT) then (s, MissingKeyColumn) else
      let p := select_lots b (processed_keys b a) in
      let i := select_lots b (in_progress_keys b a) in
      match split_bucket b p with
      | None =>
          (mkDashboard (Some b) (Some a) p i
             (processed_split_low_yield_lots s) (processed_regular_lots s)
             (in_progress_split_low_yield_lots s) (in_progress_regular_lots s)
             (split_low_yield_lots s) (analysis_complete s), AnalysisRaised)
      | Some (ps, pr) =>
          match split_bucket b i with
          | None =>
              (mkDashboard (Some b) (Some a) p i (Some ps) (Some pr)
                 (in_progress_split_low_yield_lots s) (in_progress_regular_lots s)
                 (split_low_yield_lots s) (analysis_complete s), AnalysisRaised)
          | Some (is_, ir) =>
              (mkDashboard (Some b) (Some a) p i (Some ps) (Some pr) (Some is_) (Some ir) ps true,
               AnalysisComplete)
          end
      end
  | _, _ => (s, IncompleteSnapshots)
  end.

(** * Capturing snapshots *)

(** [data] is what [read_sheet_data] returned ([None] when reading failed).
    The second component is the return value: [Some true] / [Some false],
    or [None] when an exception escapes the call. *)
Definition capture_before_shift (s : dashboard) (data : option frame) : dashboard * option bool :=
  match data with
  | None => (s, Some false)
  | Some d =>
      match filter_critical_lots d with
      | None => (s, None)
      | Some f =>
          (mkDashboard (Some f) (after_shift_data s) (processed_lots s) (in_progress_lots s)
             (processed_split_low_yield_lots s) (processed_regular_lots s)
             (in_progress_split_low_yield_lots s) (in_progress_regular_lots s)
             (split_low_yield_lots s) (analysis_complete s), Some true)
      end
  end.

Definition capture_after_shift (s : dashboard) (data : option frame) : dashboard * option bool :=
  match data with
  | None => (s, Some false)
  | Some d =>
      match filter_critical_lots d with
      | None => (s, None)
      | Some f =>
          let s1 := mkDashboard (before_shift_data s) (Some f) (processed_lots s) (in_progress_lots s)
                      (processed_split_low_yield_lots s) (processed_regular_lots s)
                      (in_progress_split_low_yield_lots s) (in_progress_regular_lots s)
                      (split_low_yield_lots s) (analysis_complete s) in
          let (s2, rep) := analyze_processed_lots s1 in
          (s2, match rep with AnalysisRaised => None | _ => Some true end)
      end
  end.

(** * Number formatting *)

Fixpoint nat_digits (fuel : nat) (n : Z) (acc : string) : string :=
  match fuel with
  | O => acc
  | S f =>
      let acc' := String (ascii_of_nat (48 + Z.to_nat (n mod 10)%Z)) acc in
      if Z.eqb (n / 10)%Z 0 then acc' else nat_digits f (n / 10)%Z acc'
  end.

(** [str(z)] for an integer. *)
Definition z_to_dec (z : Z) : string :=
  if Z.ltb z 0 then "-" ++ nat_digits (S (Z.to_nat (Z.log2 (- z)))) (- z)%Z ""
  else nat_digits (S (Z.to_nat (Z.log2 z))) z "".

(** Rounding to the nearest integer, ties to even. *)
Definition round_half_even (q : Q) : Z :=
  let n := Qnum q in
  let d := Zpos (Qden q) in
  let fl := (n / d)%Z in
  let r := (n mod d)%Z in
  if Z.ltb (2 * r) d then fl
  else if Z.ltb d (2 * r) then (fl + 1)%Z
  else if Z.even fl then fl else (fl + 1)%Z.

(** [2 ^ e] for an integer [e] of either sign. *)
Definition pow2 (e : Z) : Q :=
  if Z.leb 0 e then inject_Z (2 ^ e) else / inject_Z (2 ^ (- e)).

(** For [x > 0], the [e] with [2 ^ e <= x < 2 ^ (e + 1)]. *)
Definition binary_exponent (x : Q) : Z :=
  let e := (Z.log2 (Qnum x) - Z.log2 (Zpos (Qden x)))%Z in
  if Qle_bool (pow2 e) x then e else (e - 1)%Z.

(** Rounding to the nearest IEEE binary64 value, ties to even: 53
    significant bits, spacing [2 ^ -1074] below the normal range.  The
    quotients and products rounded below stay far under the overflow
    threshold, so no infinity arises. *)
Definition fl (x : Q) : Q :=
  if Qeq_bool x 0 then 0 else
  let ax := if Z.ltb (Qnum x) 0 then - x else x in
  let q := Z.max (binary_exponent ax - 52) (-1074) in
  let r := inject_Z (round_half_even (ax / pow2 q)) * pow2 q in
  if Z.ltb (Qnum x) 0 then - r else r.

(** [f"{x:.1f}"] for a binary64 value [x >= 0]: Python rounds the exact
    binary value to one decimal, ties to even. *)
Definition format_1f (x : Q) : string :=
  let t := round_half_even (x * 10) in
  z_to_dec (t / 10)%Z ++ "." ++ z_to_dec (t mod 10)%Z.

(** [f"{(count/total*100):.1f}%" if total > 0 else "0%"]: the true
    division of two ints is the correctly rounded quotient, the product
    by [100] is rounded again. *)
Definition rate_text (count total : nat) : string :=
  if Nat.ltb 0 total
  then format_1f (fl (fl (inject_Z (Z.of_nat count) / inject_Z (Z.of_nat total)) * 100)) ++ "%"
  else "0%".

(** * [create_summary_table] *)

Definition opt_length (o : option (list row)) : nat :=
  match o with Some l => List.length l | None => O end.

(** The table's (Metric, Value) rows; a bucket attribute that does not
    exist counts 0 ([hasattr]). *)
Definition summary_table (s : dashboard) : list (string * string) :=
  let total_lots := match before_shift_data s with
                    | Some b => List.length (rows b) | None => O end in
  let processed_count := List.length (processed_lots s) in
  [("Total Lots (Start of Shift)", z_to_dec (Z.of_nat total_lots));
   ("Processed Regular Lots", z_to_dec (Z.of_nat (opt_length (processed_regular_lots s))));
   ("Processed Split Low Yield Lots", z_to_dec (Z.of_nat (opt_length (processed_split_low_yield_lots s))));
   ("In Progress Regular Lots", z_to_dec (Z.of_nat (opt_length (in_progress_regular_lots s))));
   ("In Progress Split Low Yield Lots", z_to_dec (Z.of_nat (opt_length (in_progress_split_low_yield_lots s))));
   ("Processing Rate (%)", rate_text processed_count total_lots)].

Definition processing_rate (s : dashboard) : string :=
  match List.last (summary_table s) ("", "") with (_, v) => v end.

(** * Charts *)

(** [create_pie_chart]: the values of its two slices, Processed and In
    Progress; the attributes always exist, so there is always a chart. *)
Definition create_pie_chart (s : dashboard) : list Z :=
  [Z.of_nat (List.length (processed_lots s)); Z.of_nat (List.length (in_progress_lots s))].

(** [create_processed_categories_chart]: the values of its two slices,
    or [None] when [processed_lots] is empty. *)
Definition create_processed_categories_chart (s : dashboard) : option (list Z) :=
  if Nat.eqb (List.length (processed_lots s)) 0 then None
  else Some [(Z.of_nat (List.length (processed_lots s))
              - Z.of_nat (List.length (split_low_yield_lots s)))%Z;
             Z.of_nat (List.length (split_low_yield_lots s))].

(** [otd_sort_key] of the detailed-data tabs, on [str(status).upper()]. *)
Definition otd_sort_key (status : string) : Z :=
  let status_str := upper status in
  if contains "5" status_str ||
     (contains "OVERDUE" status_str && negb (contains "4" status_str)
      && negb (contains "3" status_str)) then 1
  else if contains "4" status_str || contains "EXPEDITE" status_str then 2
  else if contains "3" status_str || contains "NEAR DUE" status_str then 3
  else 4.

(** * Attendance console ([ConsoleAttendanceTracker.run], step 3) *)

Module Attendance.

Definition FULL_TEAM_SIZE : nat := 3.

(** [str.isspace()] on one character: the code points below 256 that
    Python counts as whitespace. *)
Definition is_space (a : ascii) : bool :=
  let n := nat_of_ascii a in
  (Nat.leb 9 n && Nat.leb n 13) || (Nat.leb 28 n && Nat.leb n 32) ||
  Nat.eqb n 133 || Nat.eqb n 160.

(** The blanks [int()] skips around a number: ASCII whitespace and the
    non-ASCII characters [str.isspace()] accepts (the separators 28-31
    are not skipped). *)
Definition int_space (a : ascii) : bool :=
  let n := nat_of_ascii a in
  (Nat.leb 9 n && Nat.leb n 13) || Nat.eqb n 32 || Nat.eqb n 133 || Nat.eqb n 160.

Fixpoint lstrip_by (sp : ascii -> bool) (s : string) : string :=
  match s with
  | String a t => if sp a then lstrip_by sp t else s
  | EmptyString => s
  end.

Fixpoint rev_str (s : string) (acc : string) : string :=
  match s with
  | String a t => rev_str t (String a acc)
  | EmptyString => acc
  end.

Definition strip_by (sp : ascii -> bool) (s : string) : string :=
  rev_str (lstrip_by sp (rev_str (lstrip_by sp s) "")) "".

(** [s.strip()] *)
Definition strip (s : string) : string := strip_by is_space s.

(** [s.split(',')] *)
Fixpoint split_commas (s : string) (cur : string) : list string :=
  match s with
  | EmptyString => [rev_str cur ""]
  | String a t =>
      if Ascii.eqb a "," then rev_str cur "" :: split_commas t ""
      else split_commas t (String a cur)
  end.

Definition is_digit (a : ascii) : bool :=
  Nat.leb 48 (nat_of_ascii a) && Nat.leb (nat_of_ascii a) 57.

Definition digit_value (a : ascii) : Z := Z.of_nat (nat_of_ascii a - 48).

(** The rest of a decimal literal after a digit: digits, each possibly
    preceded by one underscore. *)
Fixpoint digits_after (s : string) (acc : Z) : option Z :=
  match s with
  | EmptyString => Some acc
  | String a t =>
      if is_digit a then digits_after t (acc * 10 + digit_value a)%Z
      else if Ascii.eqb a "_" then
        match t with
        | String b t' => if is_digit b then digits_after t' (acc * 10 + digit_value b)%Z else None
        | EmptyString => None
        end
      else None
  end.

Definition parse_uint (s : string) : option Z :=
  match s with
  | String a t => if is_digit a then digits_after t (digit_value a) else None
  | EmptyString => None
  end.

(** [int(s)] on a [str]: surrounding blanks, an optional sign, and ASCII
    digits with single underscores between them; [None] is the
    [ValueError]. *)
Definition parse_int (s : string) : option Z :=
  let t := strip_by int_space s in
  match t with
  | String "-" u => option_map Z.opp (parse_uint u)
  | String "+" u => parse_uint u
  | _ => parse_uint t
  end.

(** [[int(x.strip()) - 1 for x in absent_input.split(',')]] *)
Definition parse_indices (s : string) : option (list Z) :=
  fold_right (fun x acc => match parse_int (strip x), acc with
                           | Some i, Some l => Some ((i - 1)%Z :: l)
                           | _, _ => None
                           end) (Some []) (split_commas s "").

(** One pass through the body of the [while True] loop of step 3. *)
Inductive attempt : Type :=
| Reprompt (msg : string)
| Accept (absent_members : list string).

Definition check_absent_input (team : list string) (expected : nat) (line : string) : attempt :=
  let absent_input := strip line in
  if String.eqb absent_input "" then Reprompt "You must enter the members"
  else match parse_indices absent_input with
  | None => Reprompt "Invalid input"
  | Some idx =>
      if Nat.ltb (List.length idx) expected then Reprompt "Too few members selected"
      else if Nat.ltb expected (List.length idx) then Reprompt "Too many members selected"
      else if forallb (fun i => Z.leb 0 i && Z.ltb i (Z.of_nat (List.length team))) idx
      then Accept (map (fun i => nth (Z.to_nat i) team "") idx)
      else Reprompt "Invalid member number"
  end.

(** The loop over successive input lines; [None] when input runs out. *)
Fixpoint absent_loop (team : list string) (expected : nat) (inputs : list string)
  : option (list string) :=
  match inputs with
  | [] => None
  | line :: rest =>
      match check_absent_input team expected line with
      | Accept l => Some l
      | Reprompt _ => absent_loop team expected rest
      end
  end.

Definition str_memb (x : string) (l : list string) : bool := existsb (String.eqb x) l.

(** [list(set(l))]: each member once (Python's order depends on string
    hashing; this is one of the possible orders). *)
Fixpoint str_set (l : list string) : list string :=
  match l with
  | [] => []
  | x :: t => if str_memb x t then str_set t else x :: str_set t
  end.

(** The rows [record_attendance] appends: (date, member, shift, status). *)
Definition attendance_records (date shift : string) (present absent : list string)
  : list (string * string * string * string) :=
  map (fun m => (date, m, shift, if str_memb m present then "Present" else "Absent"))
      (str_set (present ++ absent)).

(** Steps 3 and after, for a non-empty roster and a confirmed summary:
    the records written, or [None] when the input ends first. *)
Definition run_with_roster (date shift : string) (team : list string) (num_present : nat)
  (inputs : list string) : option (list (string * string * string * string)) :=
  let absent :=
    if Nat.ltb num_present FULL_TEAM_SIZE
    then absent_loop team (FULL_TEAM_SIZE - num_present) inputs
    else Some [] in
  match absent with
  | None => None
  | Some absent_members =>
      let present_members := filter (fun m => negb (str_memb m absent_members)) team in
      Some (attendance_records date shift present_members absent_members)
  end.

(** A three-member roster for one shift. *)
Definition roster : list string := ["Ana"; "Ben"; "Cy"].

End Attendance.

(** * Derived notions used by the statements *)

Definition cell_eq_dec : forall a b : cell, {a = b} + {a <> b}.
Proof.
  decide equality; [apply string_dec|].
  destruct q, q0.
  destruct (Z.eq_dec Qnum Qnum0), (Pos.eq_dec Qden Qden0); subst; auto;
    right; intros H; inversion H; auto.
Defined.

Definition entry_eq_dec : forall a b : string * cell, {a = b} + {a <> b}.
Proof. decide equality; [apply cell_eq_dec | apply string_dec]. Defined.

Definition row_eq_dec : forall a b : row, {a = b} + {a <> b} :=
  list_eq_dec entry_eq_dec.

Definition opt_rows (o : option (list row)) : list row :=
  match o with Some l => l | None => [] end.

(** Every row held by a bucket attribute of the dashboard. *)
Definition all_bucket_rows (s : dashboard) : list row :=
  (processed_lots s ++ in_progress_lots s
   ++ opt_rows (processed_split_low_yield_lots s) ++ opt_rows (processed_regular_lots s)
   ++ opt_rows (in_progress_split_low_yield_lots s) ++ opt_rows (in_progress_regular_lots s)
   ++ split_low_yield_lots s)%list.

(** Modelled from the spec's words (section 4.4), for comparison with
    [processing_rate]: processed keys over distinct lots of the before
    snapshot, formatted as the code formats its rate. *)
Definition spec_processing_rate (before after : frame) : string :=
  rate_text (List.length (processed_keys before after)) (List.length (lot_numbers before)).




(** * Concrete snapshots used by the examples *)

Definition lot_row (lot status category : string) : row :=
  [(LOT, Str lot); ("OTD STATUS", Str status); ("CATEGORY", Str category)].

Definition lot_frame (rs : list row) : frame := sheet_frame [LOT; "OTD STATUS"; "CATEGORY"] rs.

(** Section 8 scenario: A is split low yield, B stays, C completes. *)
Definition scenario_before : frame :=
  lot_frame [lot_row "A" "ON TIME" SPLIT_MARKER; lot_row "B" "3 NEAR DUE" "NORMAL";
             lot_row "C" "5 OVERDUE" "NORMAL"].
Definition scenario_after : frame := lot_frame [lot_row "B" "3 NEAR DUE" "NORMAL"].

(** Lot A on two operation rows, lot B on one; A completes. *)
Definition dup_before : frame :=
  lot_frame [lot_row "A" "OVERDUE" "NORMAL"; lot_row "A" "OVERDUE" "NORMAL";
             lot_row "B" "OVERDUE" "NORMAL"].
Definition dup_after : frame := lot_frame [lot_row "B" "OVERDUE" "NORMAL"].


(** Lot A carries the number 7 as CATEGORY; A completes, B stays. *)
Definition number_category_row : row :=
  [(LOT, Str "A"); ("OTD STATUS", Str "5 OVERDUE"); ("CATEGORY", Num 7)].
Definition split_row_b : row := lot_row "B" "ON TIME" SPLIT_MARKER.
Definition category_number_before : frame :=
  lot_frame [number_category_row; split_row_b].
Definition category_number_after : frame := lot_frame [split_row_b].




(** * Roster lookup ([get_team_members_for_shift], identical in both files) *)

(** Python truthiness of a cell. *)
Definition py_truthy (c : cell) : bool :=
  match c with
  | Null => false
  | Str s => negb (String.eqb s "")
  | Num q => negb (Qeq_bool q 0)
  end.

(** [a or b] *)
Definition py_or (a b : cell) : cell := if py_truthy a then a else b.

Fixpoint drop_str (n : nat) (s : string) : string :=
  match n, s with
  | S n', String _ t => drop_str n' t
  | _, _ => s
  end.

Fixpoint replace_fuel (fuel : nat) (pat s : string) : string :=
  match fuel with
  | O => s
  | S f =>
      match s with
      | EmptyString => EmptyString
      | String a t =>
          if negb (String.eqb pat "") && is_prefix pat s
          then replace_fuel f pat (drop_str (String.length pat) s)
          else String a (replace_fuel f pat t)
      end
  end.

(** [s.replace(pat, "")] for a non-empty [pat]. *)
Definition replace_empty (pat s : string) : string :=
  replace_fuel (S (String.length s)) pat s.

(** [normalize(x) = x.replace("Shift ", "").strip()] *)
Definition normalize_shift (x : string) : string :=
  Attendance.strip (replace_empty "Shift " x).

Definition member_name (m : row) : cell :=
  py_or (py_or (py_or (get m "Name") (get m "name")) (get m "Member Name")) (get m "member_name").

Definition member_shift (m : row) : cell :=
  py_or (py_or (get m "Shift") (get m "shift")) (get m "SHIFT").

(** One iteration of the loop over [members_data]: [None] is the
    [AttributeError] of [member_shift.strip()] on a non-zero number. *)
Definition member_step (selected : string) (m : row) : option (list cell) :=
  let name := member_name m in
  if py_truthy name then
    match member_shift m with
    | Str sh =>
        if negb (String.eqb (Attendance.strip sh) "") then
          let norm := normalize_shift sh in
          if String.eqb norm (normalize_shift selected) || String.eqb (upper norm) "ALL"
          then Some [name] else Some []
        else Some [name]
    | Num q => if negb (Qeq_bool q 0) then None else Some [name]
    | Null => Some [name]
    end
  else Some [].

Fixpoint get_team_members_for_shift (members_data : list row) (shift : string) : option (list cell) :=
  match members_data with
  | [] => Some []
  | m :: rest =>
      match member_step shift m, get_team_members_for_shift rest shift with
      | Some x, Some y => Some (x ++ y)%list
      | _, _ => None
      end
  end.

(** * Console run, attendance form and detape form *)

Module Console.
Import Attendance.

Definition SHIFTS : list string := ["Shift A"; "Shift B"; "Shift C"].

(** [str.lower()] on one character: the Latin-1 upper-case letters. *)
Definition lower_ascii (a : ascii) : ascii :=
  let n := nat_of_ascii a in
  if (Nat.leb 65 n && Nat.leb n 90) || (Nat.leb 192 n && Nat.leb n 222 && negb (Nat.eqb n 215))
  then ascii_of_nat (n + 32) else a.

Fixpoint lower (s : string) : string :=
  match s with
  | EmptyString => EmptyString
  | String a t => String (lower_ascii a) (lower t)
  end.

(** [int(input(...))] *)
Definition read_int (line : string) : option Z := parse_int line.

(** Step 1: [while True] until [1 <= choice <= 3]; the rest of the input
    is returned; [None] when the input ends (the [EOFError]). *)
Fixpoint shift_loop (inputs : list string) : option (string * list string) :=
  match inputs with
  | [] => None
  | line :: rest =>
      match read_int line with
      | Some c => if Z.leb 1 c && Z.leb c 3
                  then Some (nth (Z.to_nat (c - 1)) SHIFTS "", rest)
                  else shift_loop rest
      | None => shift_loop rest
      end
  end.

(** Step 2: [while True] until [0 <= num_present <= FULL_TEAM_SIZE]. *)
Fixpoint present_loop (inputs : list string) : option (nat * list string) :=
  match inputs with
  | [] => None
  | line :: rest =>
      match read_int line with
      | Some n => if Z.leb 0 n && Z.leb n (Z.of_nat FULL_TEAM_SIZE)
                  then Some (Z.to_nat n, rest)
                  else present_loop rest
      | None => present_loop rest
      end
  end.

(** Step 3 with a roster, returning the rest of the input as well. *)
Fixpoint absent_loop_rest (team : list string) (expected : nat) (inputs : list string)
  : option (list string * list string) :=
  match inputs with
  | [] => None
  | line :: rest =>
      match check_absent_input team expected line with
      | Accept l => Some (l, rest)
      | Reprompt _ => absent_loop_rest team expected rest
      end
  end.

(** Step 3 without a roster: [while len(absent_members) < expected_absent],
    a blank name is refused. *)
Fixpoint manual_loop (expected : nat) (acc : list string) (inputs : list string)
  : option (list string * list string) :=
  if Nat.leb expected (List.length acc) then Some (acc, inputs) else
  match inputs with
  | [] => None
  | line :: rest =>
      let name := strip line in
      if String.eqb name "" then manual_loop expected acc rest
      else manual_loop expected (acc ++ [name])%list rest
  end.

(** [[f"Team Member {i+1}" for i in range(n)]] *)
Definition placeholder_members (n : nat) : list string :=
  map (fun i => "Team Member " ++ z_to_dec (Z.of_nat (S i))) (seq 0 n).

(** [record_attendance]: the rows appended, or [None] when it returns
    [False].  [sheet_ok] is whether opening the spreadsheet and appending
    succeed; when they raise, the [except] branch returns [False].  With
    no row to write it returns [False] as well. *)
Definition record_attendance (sheet_ok : bool) (shift : string) (present absent : list string)
  (date : string) : option (list (string * string * string * string)) :=
  if sheet_ok then
    match attendance_records date shift present absent with
    | [] => None
    | recs => Some recs
    end
  else None.

(** [run] from step 1 on, [team] being the roster that
    [get_team_members_for_shift] returns for the chosen shift: the rows
    written, or [None] when nothing is written. *)
Definition run_console (sheet_ok : bool) (date : string) (roster_of : string -> list string) (inputs : list string)
  : option (list (string * string * string * string)) :=
  match shift_loop inputs with
  | None => None
  | Some (selected_shift, inputs) =>
  let team_members := roster_of selected_shift in
  match present_loop inputs with
  | None => None
  | Some (num_present, inputs) =>
  let absent :=
    if Nat.ltb num_present FULL_TEAM_SIZE then
      let expected_absent := (FULL_TEAM_SIZE - num_present)%nat in
      match team_members with
      | _ :: _ => absent_loop_rest team_members expected_absent inputs
      | [] => manual_loop expected_absent [] inputs
      end
    else Some ([], inputs) in
  match absent with
  | None => None
  | Some (absent_members, inputs) =>
  let present_members :=
    match team_members with
    | _ :: _ => filter (fun m => negb (str_memb m absent_members)) team_members
    | [] => placeholder_members num_present
    end in
  match inputs with
  | [] => None
  | confirm :: _ =>
      let c := lower (strip confirm) in
      if String.eqb c "yes" || String.eqb c "y"
      then record_attendance sheet_ok selected_shift present_members absent_members date
      else None
  end
  end
  end
  end.

(** Submission of the Streamlit attendance form: [absent_input] is the
    widget's selection, only shown (and used) below full strength. *)
Inductive form_outcome : Type :=
| FormRejected
| FormRecorded (recs : list (string * string * string * string))
| FormFailed.

Definition submit_attendance_form (sheet_ok : bool) (date shift : string) (team_members : list string)
  (num_present : nat) (absent_input : list string) : form_outcome :=
  let absent_members := if Nat.ltb num_present FULL_TEAM_SIZE then absent_input else [] in
  let expected_absent := (FULL_TEAM_SIZE - num_present)%nat in
  if Nat.ltb num_present FULL_TEAM_SIZE && negb (Nat.eqb (List.length absent_members) expected_absent)
  then FormRejected
  else
    let present_members :=
      match team_members with
      | _ :: _ => filter (fun m => negb (str_memb m absent_members)) team_members
      | [] => placeholder_members num_present
      end in
    match record_attendance sheet_ok shift present_members absent_members date with
    | Some recs => FormRecorded recs
    | None => FormFailed
    end.

(** Submission of the detape form; [package_codes] holds one text input
    per detape. *)
Inductive detape_outcome : Type :=
| DetapeZero
| DetapeMissing (positions : list nat)
| DetapeRecorded (records : list (string * Z * string))
| DetapeFailed.

(** [sheet_ok] is whether [record_detape] reaches its [return True]; when
    opening the sheet or appending raises, it returns [False]. *)
Definition submit_detape_form (sheet_ok : bool) (date : string) (num_detape : nat) (package_codes : list string)
  : detape_outcome :=
  if Nat.eqb num_detape 0 then DetapeZero else
  let empty_codes :=
    map fst (filter (fun ic => String.eqb (strip (snd ic)) "")
                    (combine (seq 1 (List.length package_codes)) package_codes)) in
  match empty_codes with
  | _ :: _ => DetapeMissing empty_codes
  | [] => if sheet_ok then DetapeRecorded (map (fun c => (date, 1%Z, c)) package_codes)
          else DetapeFailed
  end.

End Console.

(** * Auxiliary notions for the properties below *)

(** A row whose LOT NUMBER is not null ([dropna] keeps its key). *)
Definition keyed (r : row) : bool := match get r LOT with Null => false | _ => true end.

(** Whether the roster lists member [m] for the selected shift: a truthy
    name, and a shift cell that is blank or missing, or normalises to the
    selected shift or to ALL. *)
Definition member_listed (selected : string) (m : row) : bool :=
  py_truthy (member_name m) &&
  match member_shift m with
  | Str sh => String.eqb (Attendance.strip sh) "" ||
              String.eqb (normalize_shift sh) (normalize_shift selected) ||
              String.eqb (upper (normalize_shift sh)) "ALL"
  | _ => true
  end.

(** The members whose shift cell makes [member_shift.strip()] raise. *)
Definition member_raises (m : row) : bool :=
  py_truthy (member_name m) &&
  match member_shift m with Num q => negb (Qeq_bool q 0) | _ => false end.

(** A members sheet as [get_all_records] returns it. *)
Definition members_sheet : list row :=
  [[("Name", Str "Ana"); ("Shift", Str "Shift A")];
   [("Name", Str "Ben"); ("Shift", Str "B")];
   [("name", Str "Cy"); ("SHIFT", Str "all")];
   [("Name", Str "Dee")];
   [("Name", Str ""); ("Shift", Str "A")]].

(** The member and the status of an attendance row (date, member, shift,
    status). *)
Definition record_member (rec : string * string * string * string) : string :=
  let '(_, m, _, _) := rec in m.

Definition record_status (rec : string * string * string * string) : string :=
  let '(_, _, _, st) := rec in st.


(** * Lemmas on cell equality and membership *)


Lemma cell_eqb_refl : forall c, cell_eqb c c = true.
Proof.
  destruct c; simpl; auto using String.eqb_refl.
  apply Qeq_bool_iff; reflexivity.
Qed.

Lemma cell_eqb_sym : forall a b, cell_eqb a b = cell_eqb b a.
Proof.
  destruct a, b; simpl; auto using String.eqb_sym.
  destruct (Qeq_bool q q0) eqn:E1, (Qeq_bool q0 q) eqn:E2; auto.
  - apply Qeq_bool_iff in E1; apply Qeq_bool_neq in E2; exfalso; apply E2; now symmetry.
  - apply Qeq_bool_iff in E2; apply Qeq_bool_neq in E1; exfalso; apply E1; now symmetry.
Qed.

Lemma cell_eqb_trans : forall a b c,
  cell_eqb a b = true -> cell_eqb b c = true -> cell_eqb a c = true.
Proof.
  destruct a, b, c; simpl; try discriminate; auto.
  - intros H1 H2; apply String.eqb_eq in H1, H2; subst; apply String.eqb_refl.
  - intros H1 H2; apply Qeq_bool_iff in H1, H2; apply Qeq_bool_iff.
    now rewrite H1.
Qed.

Lemma cell_eqb_Null : forall c, cell_eqb Null c = true -> c = Null.
Proof. destruct c; simpl; congruence. Qed.

Lemma memb_compat : forall x y l,
  cell_eqb x y = true -> memb x l = memb y l.
Proof.
  intros x y l Hxy; induction l as [|z l IH]; simpl; auto.
  rewrite IH; f_equal.
  destruct (cell_eqb x z) eqn:E1, (cell_eqb y z) eqn:E2; auto.
  - rewrite cell_eqb_sym in Hxy.
    now rewrite (cell_eqb_trans _ _ _ Hxy E1) in E2.
  - now rewrite (cell_eqb_trans _ _ _ Hxy E2) in E1.
Qed.

Lemma memb_to_set : forall x l, memb x (to_set l) = memb x l.
Proof.
  intros x l; induction l as [|a l IH]; simpl; auto.
  destruct (memb a l) eqn:Ea; simpl; rewrite IH; auto.
  destruct (cell_eqb x a) eqn:Ex; simpl; auto.
  now rewrite (memb_compat _ _ l Ex).
Qed.

Lemma memb_filter : forall (p : cell -> bool) k l,
  (forall x y, cell_eqb x y = true -> p x = p y) ->
  memb k (filter p l) = memb k l && p k.
Proof.
  intros p k l Hp; induction l as [|a l IH]; simpl; auto.
  destruct (p a) eqn:Ep; simpl; rewrite IH;
    destruct (cell_eqb k a) eqn:Ek; simpl; auto.
  - now rewrite (Hp _ _ Ek), Ep.
  - rewrite (Hp _ _ Ek), Ep; now destruct (memb k l).
Qed.

Lemma memb_In : forall x l, memb x l = true -> exists y, In y l /\ cell_eqb x y = true.
Proof.
  intros x l; induction l as [|a l IH]; simpl; [discriminate|].
  intros H; apply orb_true_iff in H as [H|H].
  - exists a; auto.
  - destruct (IH H) as [y [Hy Hxy]]; exists y; auto.
Qed.

Lemma In_memb : forall x y l, In y l -> cell_eqb x y = true -> memb x l = true.
Proof.
  intros x y l; induction l as [|a l IH]; simpl; [tauto|].
  intros [<-|H] Hxy; apply orb_true_iff; [left|right]; auto.
Qed.

(** Membership in the key set of a snapshot. *)
Lemma memb_lot_numbers : forall k df,
  memb k (lot_numbers df) = true <->
  exists r, In r (rows df) /\ get r LOT <> Null /\ cell_eqb k (get r LOT) = true.
Proof.
  intros k df; unfold lot_numbers; rewrite memb_to_set; split.
  - intros H; apply memb_In in H as [y [Hy Hky]].
    apply filter_In in Hy as [Hy Hnn]; apply in_map_iff in Hy as [r [<- Hr]].
    exists r; repeat split; auto; destruct (get r LOT); simpl in *; congruence.
  - intros [r [Hr [Hnn Hk]]]; apply (In_memb _ (get r LOT)); auto.
    apply filter_In; split; [apply (in_map (fun r => get r LOT)); auto|].
    destruct (get r LOT); simpl; congruence.
Qed.

Lemma memb_Null_lot_numbers : forall df, memb Null (lot_numbers df) = false.
Proof.
  intros df; destruct (memb Null (lot_numbers df)) eqn:E; auto.
  apply memb_lot_numbers in E as [r [_ [Hnn Hk]]].
  apply cell_eqb_Null in Hk; congruence.
Qed.

Lemma memb_respects : forall l x y, cell_eqb x y = true -> memb x l = memb y l.
Proof. intros; now apply memb_compat. Qed.

Lemma negb_memb_respects : forall l x y, cell_eqb x y = true -> negb (memb x l) = negb (memb y l).
Proof. intros; f_equal; now apply memb_compat. Qed.

(** * Lemmas on [analyze_processed_lots] *)
Lemma count_occ_filter : forall (p : row -> bool) l r,
  count_occ row_eq_dec (filter p l) r = if p r then count_occ row_eq_dec l r else O.
Proof.
  intros p l r; induction l as [|x l IH]; simpl; [now destruct (p r)|].
  destruct (p x) eqn:Ep; simpl; rewrite IH;
    destruct (row_eq_dec x r) as [->|Hne]; rewrite ?Ep; auto.
Qed.

Lemma filter_filter_row : forall (p q : row -> bool) l,
  filter p (filter q l) = filter (fun r => q r && p r) l.
Proof.
  intros p q l; induction l as [|x l IH]; simpl; auto.
  destruct (q x); simpl; [destruct (p x); simpl|]; now rewrite IH.
Qed.

Lemma length_filter_negb : forall {A} (p : A -> bool) l,
  (List.length (filter p l) + List.length (filter (fun x => negb (p x)) l))%nat = List.length l.
Proof.
  intros A p l; induction l as [|x l IH]; simpl; auto.
  destruct (p x); simpl; lia.
Qed.

Lemma length_filter_le : forall {A} (p : A -> bool) l,
  (List.length (filter p l) <= List.length l)%nat.
Proof.
  intros A p l; induction l as [|x l IH]; simpl; auto.
  destruct (p x); simpl; lia.
Qed.

(** * Lemmas on the key sets and the buckets *)

Lemma memb_processed : forall b a k,
  memb k (processed_keys b a) = memb k (lot_numbers b) && negb (memb k (lot_numbers a)).
Proof.
  intros; unfold processed_keys.
  apply memb_filter; intros; now apply negb_memb_respects.
Qed.

Lemma memb_in_progress : forall b a k,
  memb k (in_progress_keys b a) = memb k (lot_numbers b) && memb k (lot_numbers a).
Proof.
  intros; unfold in_progress_keys.
  apply memb_filter; intros; now apply memb_respects.
Qed.

Lemma select_lots_In : forall df K r,
  In r (select_lots df K) <-> In r (rows df) /\ memb (get r LOT) K = true.
Proof. intros; unfold select_lots; apply filter_In. Qed.

Lemma memb_own_lot : forall b r,
  In r (rows b) -> memb (get r LOT) (lot_numbers b) = keyed r.
Proof.
  intros b r Hr; unfold keyed.
  destruct (get r LOT) eqn:E.
  - apply memb_Null_lot_numbers.
  - apply memb_lot_numbers; exists r; rewrite E; repeat split; auto; [discriminate|apply cell_eqb_refl].
  - apply memb_lot_numbers; exists r; rewrite E; repeat split; auto; [discriminate|apply cell_eqb_refl].
Qed.

(** The two row buckets, as filters of the before rows. *)
Lemma buckets_as_filters : forall b a,
  select_lots b (processed_keys b a) =
    filter (fun r => keyed r && negb (memb (get r LOT) (lot_numbers a))) (rows b) /\
  select_lots b (in_progress_keys b a) =
    filter (fun r => keyed r && memb (get r LOT) (lot_numbers a)) (rows b).
Proof.
  intros b a; unfold select_lots.
  split; apply filter_ext_in; intros r Hr;
    rewrite ?memb_processed, ?memb_in_progress; now rewrite memb_own_lot by exact Hr.
Qed.

Lemma bucket_key : forall b a r,
  In r (select_lots b (processed_keys b a)) \/ In r (select_lots b (in_progress_keys b a)) ->
  In r (rows b) /\ memb (get r LOT) (lot_numbers b) = true.
Proof.
  intros b a r [H|H]; apply select_lots_In in H as [Hr Hk]; split; auto.
  - rewrite memb_processed in Hk; now apply andb_true_iff in Hk.
  - rewrite memb_in_progress in Hk; now apply andb_true_iff in Hk.
Qed.

Lemma bucket_not_null : forall b a r,
  In r (select_lots b (processed_keys b a)) \/ In r (select_lots b (in_progress_keys b a)) ->
  In r (rows b) /\ get r LOT <> Null.
Proof.
  intros b a r H; apply bucket_key in H as [Hr Hk]; split; auto.
  intros E; now rewrite E, memb_Null_lot_numbers in Hk.
Qed.

Lemma buckets_length : forall b a,
  (List.length (select_lots b (processed_keys b a)) +
   List.length (select_lots b (in_progress_keys b a)))%nat =
  List.length (filter keyed (rows b)).
Proof.
  intros b a; destruct (buckets_as_filters b a) as [-> ->].
  rewrite <- (length_filter_negb (fun r => negb (memb (get r LOT) (lot_numbers a))) (filter keyed (rows b))).
  rewrite !filter_filter_row.
  f_equal; f_equal; apply filter_ext; intros r;
    now destruct (keyed r), (memb (get r LOT) (lot_numbers a)).
Qed.

Lemma split_bucket_cases : forall b lots sp rg,
  split_bucket b lots = Some (sp, rg) ->
  (has_col b "CATEGORY" = true /\ sp = filter split_filter lots /\
   rg = filter (fun r => negb (split_filter r)) lots) \/
  (sp = [] /\ rg = lots /\ (lots = [] \/ has_col b "CATEGORY" = false)).
Proof.
  intros b lots sp rg H; unfold split_bucket in H.
  destruct lots as [|r0 rs]; cbn [List.length Nat.eqb negb andb] in H.
  - injection H as <- <-; right; auto.
  - destruct (has_col b "CATEGORY") eqn:Hc; cbn [andb] in H.
    + destruct (str_accessor_ok _ _); [|discriminate].
      injection H as <- <-; left; auto.
    + injection H as <- <-; right; auto.
Qed.

Lemma split_bucket_incl : forall b lots sp rg r,
  split_bucket b lots = Some (sp, rg) -> In r sp \/ In r rg -> In r lots.
Proof.
  intros b lots sp rg r H Hin; apply split_bucket_cases in H as [[_ [-> ->]]|[-> [-> _]]].
  - destruct Hin as [Hin|Hin]; apply filter_In in Hin; tauto.
  - destruct Hin as [[]|Hin]; exact Hin.
Qed.

Lemma split_bucket_length : forall b lots sp rg,
  split_bucket b lots = Some (sp, rg) -> (List.length sp + List.length rg)%nat = List.length lots.
Proof.
  intros b lots sp rg H; apply split_bucket_cases in H as [[_ [-> ->]]|[-> [-> _]]].
  - apply length_filter_negb.
  - reflexivity.
Qed.

Lemma split_bucket_partition : forall b bucket sp rg,
  split_bucket b bucket = Some (sp, rg) ->
  (forall r, In r sp <-> In r bucket /\ split_filter r = true /\ has_col b "CATEGORY" = true) /\
  (forall r, In r rg <-> In r bucket /\ (split_filter r = false \/ has_col b "CATEGORY" = false)) /\
  (forall r, ~ (In r sp /\ In r rg)) /\
  (forall r, count_occ row_eq_dec bucket r = (count_occ row_eq_dec sp r + count_occ row_eq_dec rg r)%nat) /\
  (has_col b "CATEGORY" = false -> sp = [] /\ rg = bucket).
Proof.
  intros b bucket sp rg H; apply split_bucket_cases in H as [[Hc [-> ->]]|[-> [-> Hl]]].
  - rewrite Hc; split; [|split; [|split; [|split]]].
    + intros r; rewrite filter_In; split; [tauto|intros [H1 [H2 _]]; auto].
    + intros r; rewrite filter_In, negb_true_iff; split; [tauto|].
      intros [H1 [H2|H2]]; [auto|discriminate].
    + intros r [H1 H2]; apply filter_In in H1 as [_ H1]; apply filter_In in H2 as [_ H2].
      now rewrite H1 in H2.
    + intros r; rewrite !count_occ_filter; destruct (split_filter r); simpl; lia.
    + discriminate.
  - destruct Hl as [->|Hc].
    + split; [|split; [|split; [|split]]]; try (intros r; simpl; tauto); auto.
    + rewrite Hc; split; [|split; [|split; [|split]]].
      * intros r; simpl; split; [tauto|intros [_ [_ H]]; discriminate].
      * intros r; split; [tauto|intros [H _]; exact H].
      * intros r [[] _].
      * intros r; simpl; lia.
      * auto.
Qed.

(** What [analyze_processed_lots] does once both snapshots carry the key
    column: it assigns the two row buckets, then either raises in one of
    the two splits or completes. *)
Lemma analyze_lot_cases : forall s b a s' rep,
  before_shift_data s = Some b -> after_shift_data s = Some a ->
  has_col b LOT = true -> has_col a LOT = true ->
  analyze_processed_lots s = (s', rep) ->
  before_shift_data s' = Some b /\ after_shift_data s' = Some a /\
  processed_lots s' = select_lots b (processed_keys b a) /\
  in_progress_lots s' = select_lots b (in_progress_keys b a) /\
  ((rep = AnalysisComplete /\
    exists ps pr is_ ir,
      split_bucket b (processed_lots s') = Some (ps, pr) /\
      split_bucket b (in_progress_lots s') = Some (is_, ir) /\
      processed_split_low_yield_lots s' = Some ps /\ processed_regular_lots s' = Some pr /\
      in_progress_split_low_yield_lots s' = Some is_ /\ in_progress_regular_lots s' = Some ir /\
      split_low_yield_lots s' = ps /\ analysis_complete s' = true) \/
   (rep = AnalysisRaised /\
    in_progress_split_low_yield_lots s' = in_progress_split_low_yield_lots s /\
    in_progress_regular_lots s' = in_progress_regular_lots s /\
    split_low_yield_lots s' = split_low_yield_lots s /\
    analysis_complete s' = analysis_complete s /\
    ((split_bucket b (processed_lots s') = None /\
      processed_split_low_yield_lots s' = processed_split_low_yield_lots s /\
      processed_regular_lots s' = processed_regular_lots s) \/
     (exists ps pr, split_bucket b (processed_lots s') = Some (ps, pr) /\
      split_bucket b (in_progress_lots s') = None /\
      processed_split_low_yield_lots s' = Some ps /\ processed_regular_lots s' = Some pr)))).
Proof.
  intros s b a s' rep Hb Ha HB HA H.
  unfold analyze_processed_lots in H; rewrite Hb, Ha, HB, HA in H; cbn [negb orb] in H.
  destruct (split_bucket b (select_lots b (processed_keys b a))) as [[ps pr]|] eqn:E1.
  - destruct (split_bucket b (select_lots b (in_progress_keys b a))) as [[is_ ir]|] eqn:E2;
      injection H as <- <-; cbn.
    + repeat split; left; split; auto; exists ps, pr, is_, ir; auto 10.
    + repeat split; right; repeat split; right; exists ps, pr; auto.
  - injection H as <- <-; cbn; repeat split; right; repeat split; left; auto.
Qed.

(** Every row held by a bucket attribute after the call was assigned by
    the call from the before rows, or was there before and the call
    raised. *)
Lemma analyze_bucket_origin : forall s b a s' rep,
  before_shift_data s = Some b -> after_shift_data s = Some a ->
  has_col b LOT = true -> has_col a LOT = true ->
  analyze_processed_lots s = (s', rep) ->
  forall r, In r (all_bucket_rows s') ->
    In r (select_lots b (processed_keys b a)) \/ In r (select_lots b (in_progress_keys b a)) \/
    (rep = AnalysisRaised /\ In r (all_bucket_rows s)).
Proof.
  intros s b a s' rep Hb Ha HB HA H r Hin.
  destruct (analyze_lot_cases s b a s' rep Hb Ha HB HA H) as [_ [_ [Hp [Hi Hc]]]].
  unfold all_bucket_rows in Hin |- *; rewrite Hp, Hi in *.
  repeat rewrite in_app_iff in Hin |- *.
  destruct Hc as [[Hr [ps [pr [is_ [ir [E1 [E2 [F1 [F2 [F3 [F4 [F5 _]]]]]]]]]]]]|
                  [Hr [F3 [F4 [F5 [_ [[E1 [F1 F2]]|[ps [pr [E1 [E2 [F1 F2]]]]]]]]]]]];
    rewrite F1, F2, F3, F4, F5 in Hin; cbn [opt_rows] in Hin.
  - destruct Hin as [H1|[H1|[H1|[H1|[H1|[H1|H1]]]]]]; auto;
      [left; apply (split_bucket_incl b _ ps pr r E1)
      |left; apply (split_bucket_incl b _ ps pr r E1)
      |right; left; apply (split_bucket_incl b _ is_ ir r E2)
      |right; left; apply (split_bucket_incl b _ is_ ir r E2)
      |left; apply (split_bucket_incl b _ ps pr r E1)]; auto.
  - destruct Hin as [H1|[H1|H1]]; auto; right; right; split; auto; tauto.
  - destruct Hin as [H1|[H1|[H1|[H1|H1]]]]; auto;
      try solve [left; apply (split_bucket_incl b _ ps pr r E1); auto];
      right; right; split; auto; tauto.
Qed.

Lemma analyze_complete_inv : forall s s',
  analyze_processed_lots s = (s', AnalysisComplete) ->
  exists b a, before_shift_data s = Some b /\ after_shift_data s = Some a /\
              has_col b LOT = true /\ has_col a LOT = true.
Proof.
  intros s s' H; unfold analyze_processed_lots in H.
  destruct (before_shift_data s) as [b|] eqn:Hb, (after_shift_data s) as [a|] eqn:Ha;
    try discriminate.
  destruct (has_col b LOT) eqn:HB, (has_col a LOT) eqn:HA; cbn [negb orb] in H; try discriminate.
  exists b, a; auto.
Qed.

(** * C1: key sets of the delta *)

(** C1. When both snapshots are present and carry a LOT NUMBER column,
    [analyze_processed_lots] computes the processed keys as the non-null
    before keys absent after and the in-progress keys as those present in
    both, assigns the two row buckets from them, and then completes or
    raises in a category split; the two key sets are disjoint and lie
    inside the before keys; a row whose key is not a before key (for
    instance a key only in the after snapshot) is in no bucket attribute
    after the call, unless it was there already and the call raised. *)
Theorem analyze_key_sets : forall s b a s' rep,
  before_shift_data s = Some b -> after_shift_data s = Some a ->
  has_col b LOT = true -> has_col a LOT = true ->
  analyze_processed_lots s = (s', rep) ->
  (rep = AnalysisComplete \/ rep = AnalysisRaised) /\
  processed_lots s' = select_lots b (processed_keys b a) /\
  in_progress_lots s' = select_lots b (in_progress_keys b a) /\
  (forall k, memb k (processed_keys b a) = memb k (lot_numbers b) && negb (memb k (lot_numbers a))) /\
  (forall k, memb k (in_progress_keys b a) = memb k (lot_numbers b) && memb k (lot_numbers a)) /\
  (forall k, memb k (processed_keys b a) && memb k (in_progress_keys b a) = false) /\
  (forall k, memb k (processed_keys b a) || memb k (in_progress_keys b a) = true ->
             memb k (lot_numbers b) = true) /\
  (forall k, memb k (lot_numbers b) = false ->
     forall r, In r (all_bucket_rows s') -> cell_eqb (get r LOT) k = true ->
       rep = AnalysisRaised /\ In r (all_bucket_rows s)).
Proof.
  intros s b a s' rep Hb Ha HB HA H.
  destruct (analyze_lot_cases s b a s' rep Hb Ha HB HA H) as [_ [_ [Hp [Hi Hc]]]].
  split; [destruct Hc as [[-> _]|[-> _]]; auto|].
  split; [exact Hp|]; split; [exact Hi|].
  split; [intros k; apply memb_processed|].
  split; [intros k; apply memb_in_progress|].
  split; [intros k; rewrite memb_processed, memb_in_progress;
          destruct (memb k (lot_numbers b)), (memb k (lot_numbers a)); reflexivity|].
  split; [intros k; rewrite memb_processed, memb_in_progress;
          destruct (memb k (lot_numbers b)), (memb k (lot_numbers a)); simpl; auto|].
  - intros k Hk r Hr Heq.
    destruct (analyze_bucket_origin s b a s' rep Hb Ha HB HA H r Hr) as [H1|[H1|H1]]; auto;
      assert (Hm : memb (get r LOT) (lot_numbers b) = true) by (apply (bucket_key b a r); auto);
      rewrite (memb_compat _ _ (lot_numbers b) Heq), Hk in Hm; discriminate.
Qed.

(** Witness of [analyze_key_sets] on the section 8 scenario. *)
Lemma analyze_key_sets_witness :
  snd (analyze_processed_lots (new_dashboard (Some scenario_before) (Some scenario_after) false))
    = AnalysisComplete \/
  snd (analyze_processed_lots (new_dashboard (Some scenario_before) (Some scenario_after) false))
    = AnalysisRaised.
Proof.
  apply (analyze_key_sets (new_dashboard (Some scenario_before) (Some scenario_after) false)
           scenario_before scenario_after
           (fst (analyze_processed_lots (new_dashboard (Some scenario_before) (Some scenario_after) false)))
           (snd (analyze_processed_lots (new_dashboard (Some scenario_before) (Some scenario_after) false))));
    vm_compute; reflexivity.
Defined.

(** * C4: split / regular partition of each bucket *)

(** C4. After an analysis that completes, each of [processed_lots] and
    [in_progress_lots] is split into a split-low-yield subset (rows whose
    CATEGORY contains the marker, case-insensitively) and a regular subset
    (the rest): the subsets are disjoint and together hold every row of
    the bucket with its multiplicity; without a CATEGORY column the split
    subset is empty and the regular subset is the whole bucket.  On the
    section 8 scenario, captured before and after, the processed keys are
    A and C, the in-progress key B, the processed split rows lot A's and
    the processed regular rows lot C's. *)
Theorem analyze_split_partition :
  (forall s s', analyze_processed_lots s = (s', AnalysisComplete) ->
    exists b psp prg isp irg,
      before_shift_data s' = Some b /\
      processed_split_low_yield_lots s' = Some psp /\ processed_regular_lots s' = Some prg /\
      in_progress_split_low_yield_lots s' = Some isp /\ in_progress_regular_lots s' = Some irg /\
      forall bucket sp rg,
        (bucket, sp, rg) = (processed_lots s', psp, prg) \/
        (bucket, sp, rg) = (in_progress_lots s', isp, irg) ->
        (forall r, In r sp <-> In r bucket /\ split_filter r = true /\ has_col b "CATEGORY" = true) /\
        (forall r, In r rg <-> In r bucket /\ (split_filter r = false \/ has_col b "CATEGORY" = false)) /\
        (forall r, ~ (In r sp /\ In r rg)) /\
        (forall r, count_occ row_eq_dec bucket r =
                   (count_occ row_eq_dec sp r + count_occ row_eq_dec rg r)%nat) /\
        (has_col b "CATEGORY" = false -> sp = [] /\ rg = bucket)) /\
  (processed_keys scenario_before scenario_after, in_progress_keys scenario_before scenario_after,
   processed_split_low_yield_lots
     (fst (capture_after_shift
             (fst (capture_before_shift (new_dashboard None None false) (Some scenario_before)))
             (Some scenario_after))),
   processed_regular_lots
     (fst (capture_after_shift
             (fst (capture_before_shift (new_dashboard None None false) (Some scenario_before)))
             (Some scenario_after)))) =
  ([Str "A"; Str "C"], [Str "B"], Some [lot_row "A" "ON TIME" SPLIT_MARKER],
   Some [lot_row "C" "5 OVERDUE" "NORMAL"]).
Proof.
  split; [|vm_compute; reflexivity].
  intros s s' H.
  destruct (analyze_complete_inv s s' H) as [b [a [Hb [Ha [HB HA]]]]].
  destruct (analyze_lot_cases s b a s' _ Hb Ha HB HA H) as [Hb' [_ [_ [_ Hc]]]].
  destruct Hc as [[_ [ps [pr [is_ [ir [E1 [E2 [F1 [F2 [F3 [F4 _]]]]]]]]]]]|[Hr _]]; [|discriminate].
  exists b, ps, pr, is_, ir.
  split; [exact Hb'|split; [exact F1|split; [exact F2|split; [exact F3|split; [exact F4|]]]]].
  intros bucket sp rg [Hs|Hs]; injection Hs as -> -> ->; eapply split_bucket_partition; eauto.
Qed.

(** Witness of [analyze_split_partition] on the section 8 scenario. *)
Lemma analyze_split_partition_witness :
  exists b psp prg isp irg,
    before_shift_data (fst (analyze_processed_lots
                              (new_dashboard (Some scenario_before) (Some scenario_after) false)))
      = Some b /\
    processed_split_low_yield_lots (fst (analyze_processed_lots
                              (new_dashboard (Some scenario_before) (Some scenario_after) false)))
      = Some psp /\
    processed_regular_lots (fst (analyze_processed_lots
                              (new_dashboard (Some scenario_before) (Some scenario_after) false)))
      = Some prg /\
    in_progress_split_low_yield_lots (fst (analyze_processed_lots
                              (new_dashboard (Some scenario_before) (Some scenario_after) false)))
      = Some isp /\
    in_progress_regular_lots (fst (analyze_processed_lots
                              (new_dashboard (Some scenario_before) (Some scenario_after) false)))
      = Some irg.
Proof.
  destruct (proj1 analyze_split_partition
              (new_dashboard (Some scenario_before) (Some scenario_after) false)
              (fst (analyze_processed_lots (new_dashboard (Some scenario_before) (Some scenario_after) false))))
    as [b [psp [prg [isp [irg [H1 [H2 [H3 [H4 [H5 _]]]]]]]]]];
    [vm_compute; reflexivity|].
  exists b, psp, prg, isp, irg; auto.
Defined.

(** * C6: failure paths of [analyze_processed_lots] *)

(** C6, failing input.  Before snapshot: lot A with OTD STATUS
    "5 OVERDUE" and the number 7 as CATEGORY, lot B "ON TIME" with the
    split marker; after snapshot: lot B.  Both captures keep every row
    (the CATEGORY column mixes text and a number, so [.str] exists).  The
    after capture stores its snapshot, the analysis assigns the row
    buckets, and [lots['CATEGORY'].str] on the processed bucket, whose
    only CATEGORY cell is a number, raises: the exception escapes
    [capture_after_shift], neither the warning nor the error is shown, and
    [processed_lots] and [in_progress_lots] have already been overwritten
    while [analysis_complete] is not set. *)
Lemma analyze_category_number_raises :
  capture_before_shift (new_dashboard None None false) (Some category_number_before) =
    (new_dashboard (Some category_number_before) None false, Some true) /\
  capture_after_shift (new_dashboard (Some category_number_before) None false)
    (Some category_number_after) =
    (mkDashboard (Some category_number_before) (Some category_number_after)
       [number_category_row] [split_row_b] None None None None [] false, None) /\
  snd (analyze_processed_lots
         (new_dashboard (Some category_number_before) (Some category_number_after) false))
    = AnalysisRaised /\
  processed_lots (new_dashboard (Some category_number_before) None false) = [].
Proof. repeat split; vm_compute; reflexivity. Qed.

(** * C7: rows without a lot number *)




(** * C10: the row buckets partition the keyed rows of the before snapshot *)

(** C10.  When both snapshots carry a LOT NUMBER column, the row buckets
    the analysis assigns (whether it then completes or raises) hold every
    before row with a non-null LOT NUMBER, with its full multiplicity, in
    exactly one of [processed_lots] and [in_progress_lots]; they hold only
    before rows with a non-null LOT NUMBER; and every row of any bucket
    attribute is such a row, or was there already and the call raised. *)
Theorem analyze_rows_partition : forall s b a s' rep,
  before_shift_data s = Some b -> after_shift_data s = Some a ->
  has_col b LOT = true -> has_col a LOT = true ->
  analyze_processed_lots s = (s', rep) ->
  (forall r, get r LOT <> Null ->
     (count_occ row_eq_dec (processed_lots s') r + count_occ row_eq_dec (in_progress_lots s') r)%nat =
     count_occ row_eq_dec (rows b) r) /\
  (forall r, count_occ row_eq_dec (processed_lots s') r = O \/
             count_occ row_eq_dec (in_progress_lots s') r = O) /\
  (forall r, In r (processed_lots s' ++ in_progress_lots s') -> In r (rows b) /\ get r LOT <> Null) /\
  (forall r, In r (all_bucket_rows s') ->
     (In r (rows b) /\ get r LOT <> Null) \/ (rep = AnalysisRaised /\ In r (all_bucket_rows s))).
Proof.
  intros s b a s' rep Hb Ha HB HA H.
  destruct (analyze_lot_cases s b a s' rep Hb Ha HB HA H) as [_ [_ [Hp [Hi _]]]].
  split; [|split; [|split]].
  - intros r Hnn; rewrite Hp, Hi; unfold select_lots.
    rewrite !count_occ_filter, memb_processed, memb_in_progress.
    destruct (count_occ row_eq_dec (rows b) r) eqn:Ec.
    + destruct (memb _ _ && _), (memb _ _ && _); reflexivity.
    + assert (Hin : In r (rows b)) by (apply (count_occ_In row_eq_dec); lia).
      assert (HkB : memb (get r LOT) (lot_numbers b) = true).
      { apply memb_lot_numbers; exists r; repeat split; auto; apply cell_eqb_refl. }
      rewrite HkB; destruct (memb (get r LOT) (lot_numbers a)); simpl; lia.
  - intros r; rewrite Hp, Hi; unfold select_lots.
    rewrite !count_occ_filter, memb_processed, memb_in_progress.
    destruct (memb (get r LOT) (lot_numbers b)), (memb (get r LOT) (lot_numbers a)); simpl; auto.
  - intros r Hin; rewrite Hp, Hi in Hin; apply in_app_iff in Hin.
    now apply (bucket_not_null b a r).
  - intros r Hin.
    destruct (analyze_bucket_origin s b a s' rep Hb Ha HB HA H r Hin) as [H1|[H1|H1]]; auto;
      left; apply (bucket_not_null b a r); auto.
Qed.

(** Witness of [analyze_rows_partition] on the duplicated-lot snapshot. *)
Lemma analyze_rows_partition_witness :
  (count_occ row_eq_dec
     (processed_lots (fst (analyze_processed_lots (new_dashboard (Some dup_before) (Some dup_after) false))))
     (lot_row "A" "OVERDUE" "NORMAL") +
   count_occ row_eq_dec
     (in_progress_lots (fst (analyze_processed_lots (new_dashboard (Some dup_before) (Some dup_after) false))))
     (lot_row "A" "OVERDUE" "NORMAL"))%nat =
  count_occ row_eq_dec (rows dup_before) (lot_row "A" "OVERDUE" "NORMAL").
Proof.
  apply (analyze_rows_partition (new_dashboard (Some dup_before) (Some dup_after) false)
           dup_before dup_after
           (fst (analyze_processed_lots (new_dashboard (Some dup_before) (Some dup_after) false)))
           (snd (analyze_processed_lots (new_dashboard (Some dup_before) (Some dup_after) false))));
    try (vm_compute; reflexivity); discriminate.
Defined.

(** * C2: processing rate *)

(** C2, failing input: lot A on two rows and lot B on one, all overdue
    (the critical filter keeps every row); A completes.  The claim's rate
    is one processed key over two distinct lots, "50.0%"; the summary
    table counts processed rows over before rows, "66.7%". *)
Lemma processing_rate_duplicate_rows :
  filter_critical_lots dup_before = Some dup_before /\
  filter_critical_lots dup_after = Some dup_after /\
  snd (analyze_processed_lots (new_dashboard (Some dup_before) (Some dup_after) false))
    = AnalysisComplete /\
  processing_rate (fst (analyze_processed_lots (new_dashboard (Some dup_before) (Some dup_after) false)))
    = "66.7%" /\
  spec_processing_rate dup_before dup_after = "50.0%".
Proof. repeat split; vm_compute; reflexivity. Qed.

(** * C8: a capture replaces the stored snapshot *)

Lemma analyze_keeps_snapshots : forall s,
  before_shift_data (fst (analyze_processed_lots s)) = before_shift_data s /\
  after_shift_data (fst (analyze_processed_lots s)) = after_shift_data s.
Proof.
  intros s; unfold analyze_processed_lots.
  destruct (before_shift_data s) as [b|] eqn:Hb, (after_shift_data s) as [a|] eqn:Ha; auto.
  destruct (has_col b LOT), (has_col a LOT); cbn [negb orb]; auto.
  destruct (split_bucket b _) as [[ps pr]|]; [destruct (split_bucket b _) as [[is_ ir]|]|]; auto.
Qed.




(** * C3: the critical filter *)







(** * C9: the absentee count check of the attendance console *)

(** C9, failing input.  With the roster Ana, Ben, Cy, one member present
    (two absentees expected) and the answer "1,1", the console's count
    check sees two indices and accepts; the selected absentees form a set
    of one member, and the records written mark Ben and Cy present and
    only Ana absent. *)
Lemma duplicate_absentee_accepted :
  Attendance.check_absent_input Attendance.roster 2 "1,1" = Attendance.Accept ["Ana"; "Ana"] /\
  List.length (Attendance.str_set ["Ana"; "Ana"]) = 1%nat /\
  Attendance.run_with_roster "2026-10-16" "Shift A" Attendance.roster 1 ["1,1"] =
  Some [("2026-10-16", "Ben", "Shift A", "Present");
        ("2026-10-16", "Cy", "Shift A", "Present");
        ("2026-10-16", "Ana", "Shift A", "Absent")].
Proof. repeat split; vm_compute; reflexivity. Qed.

(** * Further properties of the dashboard *)

Lemma analyze_report_eq : forall s,
  snd (analyze_processed_lots s) =
  match before_shift_data s, after_shift_data s with
  | Some b, Some a =>
      if negb (has_col b LOT) || negb (has_col a LOT) then MissingKeyColumn else
      match split_bucket b (select_lots b (processed_keys b a)),
            split_bucket b (select_lots b (in_progress_keys b a)) with
      | Some _, Some _ => AnalysisComplete
      | _, _ => AnalysisRaised
      end
  | _, _ => IncompleteSnapshots
  end.
Proof.
  intros s; unfold analyze_processed_lots.
  destruct (before_shift_data s) as [b|], (after_shift_data s) as [a|]; try reflexivity.
  destruct (_ || _); [reflexivity|].
  destruct (split_bucket b (select_lots b (processed_keys b a))) as [[ps pr]|];
    destruct (split_bucket b (select_lots b (in_progress_keys b a))) as [[is_ ir]|]; reflexivity.
Qed.



(** The capture workflow: when neither filter raises, capturing the
    before sheet [d1] and then the after sheet [d2] stores both filtered
    sheets; the after capture raises exactly when both filtered sheets
    carry a LOT NUMBER column and a category split of the analysis
    raises; when both carry it and it does not raise, the analysis is
    complete. *)
Theorem capture_workflow : forall s d1 d2 f1 f2,
  filter_critical_lots d1 = Some f1 -> filter_critical_lots d2 = Some f2 ->
  snd (capture_before_shift s (Some d1)) = Some true /\
  before_shift_data (fst (capture_after_shift (fst (capture_before_shift s (Some d1))) (Some d2)))
    = Some f1 /\
  after_shift_data (fst (capture_after_shift (fst (capture_before_shift s (Some d1))) (Some d2)))
    = Some f2 /\
  (snd (capture_after_shift (fst (capture_before_shift s (Some d1))) (Some d2)) = None <->
     has_col f1 LOT = true /\ has_col f2 LOT = true /\
     (split_bucket f1 (select_lots f1 (processed_keys f1 f2)) = None \/
      split_bucket f1 (select_lots f1 (in_progress_keys f1 f2)) = None)) /\
  (has_col f1 LOT = true -> has_col f2 LOT = true ->
   snd (capture_after_shift (fst (capture_before_shift s (Some d1))) (Some d2)) = Some true ->
   analysis_complete (fst (capture_after_shift (fst (capture_before_shift s (Some d1))) (Some d2)))
     = true).
Proof.
  intros s d1 d2 f1 f2 H1 H2.
  unfold capture_before_shift, capture_after_shift; rewrite H1, H2; cbn [fst snd].
  match goal with |- context [analyze_processed_lots ?x] => set (s1 := x) end.
  pose proof (analyze_keeps_snapshots s1) as [Kb Ka].
  pose proof (analyze_report_eq s1) as Hr.
  destruct (analyze_processed_lots s1) as [s2 rep] eqn:E; cbn [fst snd] in *.
  cbn [s1 before_shift_data after_shift_data] in Kb, Ka, Hr.
  split; [reflexivity|split; [exact Kb|split; [exact Ka|]]].
  destruct (has_col f1 LOT) eqn:HB1, (has_col f2 LOT) eqn:HB2; cbn [negb orb] in Hr;
    try (subst rep; split; [split; [discriminate | intros [X [Y _]]; discriminate] | intros X Y Z; discriminate]).
  destruct (split_bucket f1 (select_lots f1 (processed_keys f1 f2))) as [[ps pr]|] eqn:E1,
    (split_bucket f1 (select_lots f1 (in_progress_keys f1 f2))) as [[is_ ir]|] eqn:E2;
    subst rep.
  - split; [split; [discriminate | intros [_ [_ [X|X]]]; discriminate] |].
    intros _ _ _.
    destruct (analyze_lot_cases s1 f1 f2 s2 AnalysisComplete eq_refl eq_refl HB1 HB2 E)
      as [_ [_ [_ [_ [[_ [ps' [pr' [is' [ir' [_ [_ [_ [_ [_ [_ [_ Hc]]]]]]]]]]]]|[X _]]]]]];
      [exact Hc|discriminate].
  - split; [split; [intros _; split; [reflexivity|split; [reflexivity|auto]] | reflexivity] |].
    intros _ _ X; discriminate.
  - split; [split; [intros _; split; [reflexivity|split; [reflexivity|auto]] | reflexivity] |].
    intros _ _ X; discriminate.
  - split; [split; [intros _; split; [reflexivity|split; [reflexivity|auto]] | reflexivity] |].
    intros _ _ X; discriminate.
Qed.

(** Witness of [capture_workflow] on the section 8 scenario. *)
Lemma capture_workflow_witness :
  snd (capture_before_shift (new_dashboard None None false) (Some scenario_before)) = Some true.
Proof.
  apply (capture_workflow (new_dashboard None None false) scenario_before scenario_after
           scenario_before scenario_after); vm_compute; reflexivity.
Defined.

(** [create_pie_chart] shows two empty slices on a dashboard as [main]
    builds it; once an analysis has assigned the row buckets, its
    Processed and In Progress slices add up to the number of before rows
    with a non-null LOT NUMBER, so never exceed the before row count. *)
Theorem pie_chart_total :
  (forall before after complete,
     create_pie_chart (new_dashboard before after complete) = [0%Z; 0%Z]) /\
  (forall s b a s' rep,
     before_shift_data s = Some b -> after_shift_data s = Some a ->
     has_col b LOT = true -> has_col a LOT = true ->
     analyze_processed_lots s = (s', rep) ->
     exists p i, create_pie_chart s' = [Z.of_nat p; Z.of_nat i] /\
       (p + i)%nat = List.length (filter keyed (rows b)) /\
       (p + i <= List.length (rows b))%nat).
Proof.
  split; [reflexivity|].
  intros s b a s' rep Hb Ha HB HA H.
  destruct (analyze_lot_cases s b a s' rep Hb Ha HB HA H) as [_ [_ [Hp [Hi _]]]].
  exists (List.length (processed_lots s')), (List.length (in_progress_lots s')).
  split; [reflexivity|].
  rewrite Hp, Hi, buckets_length; split; [reflexivity|apply length_filter_le].
Qed.

(** Witness of [pie_chart_total] on the duplicated-lot snapshot. *)
Lemma pie_chart_total_witness :
  exists p i,
    create_pie_chart (fst (analyze_processed_lots (new_dashboard (Some dup_before) (Some dup_after) false)))
      = [Z.of_nat p; Z.of_nat i] /\
    (p + i)%nat = List.length (filter keyed (rows dup_before)) /\
    (p + i <= List.length (rows dup_before))%nat.
Proof.
  apply (proj2 pie_chart_total (new_dashboard (Some dup_before) (Some dup_after) false)
           dup_before dup_after
           (fst (analyze_processed_lots (new_dashboard (Some dup_before) (Some dup_after) false)))
           (snd (analyze_processed_lots (new_dashboard (Some dup_before) (Some dup_after) false))));
    vm_compute; reflexivity.
Defined.

Lemma analyze_complete_fields : forall s s',
  analyze_processed_lots s = (s', AnalysisComplete) ->
  exists b a ps pr is_ ir,
    before_shift_data s = Some b /\ after_shift_data s = Some a /\
    has_col b LOT = true /\ has_col a LOT = true /\
    before_shift_data s' = Some b /\
    processed_lots s' = select_lots b (processed_keys b a) /\
    in_progress_lots s' = select_lots b (in_progress_keys b a) /\
    processed_split_low_yield_lots s' = Some ps /\ processed_regular_lots s' = Some pr /\
    in_progress_split_low_yield_lots s' = Some is_ /\ in_progress_regular_lots s' = Some ir /\
    split_low_yield_lots s' = ps /\
    (List.length ps + List.length pr)%nat = List.length (processed_lots s') /\
    (List.length is_ + List.length ir)%nat = List.length (in_progress_lots s').
Proof.
  intros s s' H.
  destruct (analyze_complete_inv s s' H) as [b [a [Hb [Ha [HB HA]]]]].
  destruct (analyze_lot_cases s b a s' _ Hb Ha HB HA H) as [Hb' [_ [Hp [Hi Hc]]]].
  destruct Hc as [[_ [ps [pr [is_ [ir [E1 [E2 [F1 [F2 [F3 [F4 [F5 _]]]]]]]]]]]]|[Hr _]]; [|discriminate].
  exists b, a, ps, pr, is_, ir; repeat (split; [assumption|]).
  split; eapply split_bucket_length; eauto.
Qed.

(** After an analysis that completes, [create_processed_categories_chart]
    has no chart exactly when no row was processed; otherwise its
    "Regular Processed" slice is the number of processed regular rows and
    its "Split Low Yield" slice the number of processed split rows, the
    counts the summary table shows. *)
Theorem categories_chart_slices : forall s s',
  analyze_processed_lots s = (s', AnalysisComplete) ->
  create_processed_categories_chart s' =
  if Nat.eqb (List.length (processed_lots s')) 0 then None
  else Some [Z.of_nat (opt_length (processed_regular_lots s'));
             Z.of_nat (opt_length (processed_split_low_yield_lots s'))].
Proof.
  intros s s' H.
  destruct (analyze_complete_fields s s' H)
    as [b [a [ps [pr [is_ [ir [_ [_ [_ [_ [_ [_ [_ [F1 [F2 [_ [_ [F5 [L1 _]]]]]]]]]]]]]]]]]]].
  unfold create_processed_categories_chart; rewrite F1, F2, F5; cbn [opt_length].
  destruct (Nat.eqb _ 0); [reflexivity|].
  do 3 f_equal; lia.
Qed.

(** Witness of [categories_chart_slices] on the section 8 scenario. *)
Lemma categories_chart_slices_witness :
  create_processed_categories_chart
    (fst (analyze_processed_lots (new_dashboard (Some scenario_before) (Some scenario_after) false))) =
  Some [1%Z; 1%Z].
Proof.
  rewrite (categories_chart_slices (new_dashboard (Some scenario_before) (Some scenario_after) false)
             (fst (analyze_processed_lots (new_dashboard (Some scenario_before) (Some scenario_after) false))))
    by (vm_compute; reflexivity).
  vm_compute; reflexivity.
Defined.

(** After an analysis that completes, the summary table shows the before
    row count as "Total Lots (Start of Shift)"; its four bucket counts
    (processed regular, processed split, in-progress regular, in-progress
    split) add up to the number of before rows with a non-null LOT
    NUMBER, which is at most that total; and the processing rate is the
    processed row count over the before row count, as [rate_text] renders
    it (Python's rounded float quotient, times 100, to one decimal). *)
Theorem summary_table_counts : forall s s' b,
  analyze_processed_lots s = (s', AnalysisComplete) -> before_shift_data s = Some b ->
  exists pr ps ir is_,
    summary_table s' =
    [("Total Lots (Start of Shift)", z_to_dec (Z.of_nat (List.length (rows b))));
     ("Processed Regular Lots", z_to_dec (Z.of_nat pr));
     ("Processed Split Low Yield Lots", z_to_dec (Z.of_nat ps));
     ("In Progress Regular Lots", z_to_dec (Z.of_nat ir));
     ("In Progress Split Low Yield Lots", z_to_dec (Z.of_nat is_));
     ("Processing Rate (%)", rate_text (pr + ps) (List.length (rows b)))] /\
    (pr + ps + ir + is_)%nat = List.length (filter keyed (rows b)) /\
    (List.length (filter keyed (rows b)) <= List.length (rows b))%nat.
Proof.
  intros s s' b0 H Hb0.
  destruct (analyze_complete_fields s s' H)
    as [b [a [ps [pr [is_ [ir [Hb [_ [_ [_ [Hb' [Hp [Hi [F1 [F2 [F3 [F4 [_ [L1 L2]]]]]]]]]]]]]]]]]]].
  rewrite Hb0 in Hb; injection Hb as <-.
  exists (List.length pr), (List.length ps), (List.length ir), (List.length is_).
  split; [|split; [|apply length_filter_le]].
  - unfold summary_table; rewrite Hb', F1, F2, F3, F4; cbn [opt_length].
    replace (List.length (processed_lots s')) with (List.length pr + List.length ps)%nat by lia.
    reflexivity.
  - rewrite <- (buckets_length b0 a), <- Hp, <- Hi; lia.
Qed.

(** Witness of [summary_table_counts] on the duplicated-lot snapshot. *)
Lemma summary_table_counts_witness :
  exists pr ps ir is_,
    summary_table (fst (analyze_processed_lots (new_dashboard (Some dup_before) (Some dup_after) false))) =
    [("Total Lots (Start of Shift)", z_to_dec (Z.of_nat (List.length (rows dup_before))));
     ("Processed Regular Lots", z_to_dec (Z.of_nat pr));
     ("Processed Split Low Yield Lots", z_to_dec (Z.of_nat ps));
     ("In Progress Regular Lots", z_to_dec (Z.of_nat ir));
     ("In Progress Split Low Yield Lots", z_to_dec (Z.of_nat is_));
     ("Processing Rate (%)", rate_text (pr + ps) (List.length (rows dup_before)))] /\
    (pr + ps + ir + is_)%nat = List.length (filter keyed (rows dup_before)) /\
    (List.length (filter keyed (rows dup_before)) <= List.length (rows dup_before))%nat.
Proof.
  apply (summary_table_counts (new_dashboard (Some dup_before) (Some dup_after) false)
           (fst (analyze_processed_lots (new_dashboard (Some dup_before) (Some dup_after) false)))
           dup_before); vm_compute; reflexivity.
Defined.

(** * Sorting of the detailed-data tabs *)

Lemma is_prefix_app : forall p q s, is_prefix (p ++ q) s = true -> is_prefix p s = true.
Proof.
  induction p as [|x p IH]; intros q s H; [reflexivity|].
  destruct s as [|y s]; cbn [append is_prefix] in *; [discriminate|].
  apply andb_true_iff in H as [H1 H2]; now rewrite H1, (IH q s H2).
Qed.

Lemma contains_app : forall p q s, contains (p ++ q) s = true -> contains p s = true.
Proof.
  intros p q; induction s as [|y s IH]; intros H; unfold contains in H |- *; fold contains in *.
  - apply orb_true_iff in H as [H|H]; [now rewrite (is_prefix_app _ _ _ H)|discriminate].
  - apply orb_true_iff in H as [H|H]; [now rewrite (is_prefix_app _ _ _ H)|].
    rewrite (IH H); apply orb_true_r.
Qed.

(** Every row the OTD filter of [filter_critical_lots] keeps has a text
    OTD STATUS to which [otd_sort_key] gives rank 1, 2 or 3: sorting a
    tab puts no critical row in the last group, rank 4. *)
Theorem otd_rows_rank_first : forall r,
  otd_filter r = true ->
  exists s, get r "OTD STATUS" = Str s /\ (1 <= otd_sort_key s <= 3)%Z.
Proof.
  intros r H; unfold otd_filter, cell_contains_any in H.
  destruct (get r "OTD STATUS") as [|s|q]; try discriminate.
  exists s; split; [reflexivity|].
  unfold contains_ci in H; cbn [existsb] in H.
  change (upper "NEAR DUE") with "NEAR DUE" in H.
  change (upper "EXPEDITE OVERDUE") with ("EXPEDITE" ++ " OVERDUE") in H.
  change (upper "OVERDUE") with "OVERDUE" in H.
  unfold otd_sort_key; set (u := upper s) in *.
  pose proof (contains_app "EXPEDITE" " OVERDUE" u) as Hx.
  destruct (contains "EXPEDITE" u), (contains ("EXPEDITE" ++ " OVERDUE") u),
    (contains "NEAR DUE" u), (contains "OVERDUE" u),
    (contains "5" u), (contains "4" u), (contains "3" u);
    cbn [orb andb negb] in *; try discriminate; try (specialize (Hx eq_refl); discriminate); lia.
Qed.

Lemma otd_rows_rank_first_witness :
  exists s, get [("OTD STATUS", Str "4 Expedite Overdue")] "OTD STATUS" = Str s /\
            (1 <= otd_sort_key s <= 3)%Z.
Proof. apply otd_rows_rank_first; vm_compute; reflexivity. Defined.

(** * Roster lookup *)

Lemma member_step_cases : forall sel m,
  member_step sel m = if member_raises m then None
                      else Some (if member_listed sel m then [member_name m] else []).
Proof.
  intros sel m; unfold member_step, member_raises, member_listed.
  destruct (py_truthy (member_name m)); cbn [andb]; [|reflexivity].
  destruct (member_shift m) as [|sh|q]; cbn [negb].
  - reflexivity.
  - destruct (String.eqb (Attendance.strip sh) ""); cbn [negb orb]; [reflexivity|].
    destruct (String.eqb (normalize_shift sh) (normalize_shift sel) ||
              String.eqb (upper (normalize_shift sh)) "ALL"); reflexivity.
  - destruct (Qeq_bool q 0); reflexivity.
Qed.

Lemma team_members_cases : forall members sel,
  get_team_members_for_shift members sel =
  if existsb member_raises members then None
  else Some (map member_name (filter (member_listed sel) members)).
Proof.
  intros members sel; induction members as [|m ms IH]; [reflexivity|].
  cbn [get_team_members_for_shift existsb filter].
  rewrite member_step_cases, IH.
  destruct (member_raises m); cbn [orb]; [reflexivity|].
  destruct (existsb member_raises ms); [reflexivity|].
  destruct (member_listed sel m); reflexivity.
Qed.

(** [get_team_members_for_shift] raises (the [AttributeError] of
    [member_shift.strip()]) exactly when some member with a name has a
    non-zero number as shift cell; otherwise it lists, in roster order,
    exactly the names of the members with a truthy name whose shift cell
    is blank or missing, or normalises (["Shift "] removed, blanks
    stripped) to the selected shift or, in any case, to ALL. *)
Theorem team_members_for_shift_spec : forall members sel,
  (get_team_members_for_shift members sel = None <->
   exists m, In m members /\ member_raises m = true) /\
  (forall l, get_team_members_for_shift members sel = Some l ->
   l = map member_name (filter (member_listed sel) members) /\
   forall x, In x l <-> exists m, In m members /\ member_listed sel m = true /\ x = member_name m).
Proof.
  intros members sel; rewrite team_members_cases; split.
  - rewrite <- existsb_exists; destruct (existsb member_raises members); split;
      auto; discriminate.
  - intros l; destruct (existsb member_raises members); [discriminate|].
    intros H; injection H as <-; split; [reflexivity|].
    intros x; rewrite in_map_iff; split.
    + intros [m [<- Hm]]; apply filter_In in Hm as [Hm Hl]; eauto.
    + intros [m [Hm [Hl ->]]]; exists m; split; auto; apply filter_In; auto.
Qed.

Lemma drop_str_length : forall n s, String.length (drop_str n s) = (String.length s - n)%nat.
Proof.
  induction n as [|n IH]; intros [|a s]; cbn [drop_str String.length]; auto; lia.
Qed.

Lemma replace_fuel_enough : forall pat, pat <> "" ->
  forall f s f', (String.length s < f)%nat -> (String.length s < f')%nat ->
  replace_fuel f pat s = replace_fuel f' pat s.
Proof.
  intros pat Hp; induction f as [|f IH]; intros s f' H1 H2; [lia|].
  destruct f' as [|f']; [lia|].
  destruct s as [|a t]; cbn [replace_fuel]; [reflexivity|].
  destruct (negb (String.eqb pat "") && is_prefix pat (String a t)).
  - apply IH; rewrite drop_str_length;
      destruct pat as [|x p]; try congruence; cbn [String.length] in *; lia.
  - f_equal; apply IH; cbn [String.length] in *; lia.
Qed.

Lemma is_prefix_self : forall p x, is_prefix p (p ++ x) = true.
Proof. induction p as [|a p IH]; intros x; cbn [append is_prefix]; auto; now rewrite Ascii.eqb_refl, IH. Qed.

Lemma drop_str_app : forall p x, drop_str (String.length p) (p ++ x) = x.
Proof. induction p as [|a p IH]; intros x; cbn [append String.length drop_str]; auto. Qed.

Lemma length_append : forall p x, String.length (p ++ x) = (String.length p + String.length x)%nat.
Proof. induction p as [|a p IH]; intros x; cbn [append String.length]; auto. now rewrite IH. Qed.

Lemma replace_empty_prefix : forall pat x, pat <> "" ->
  replace_empty pat (pat ++ x) = replace_empty pat x.
Proof.
  intros pat x Hp; unfold replace_empty.
  rewrite (replace_fuel_enough pat Hp (S (String.length x)) x (String.length (pat ++ x)))
    by (try rewrite length_append; destruct pat; [congruence|cbn [String.length]; lia]).
  destruct pat as [|a p]; [congruence|].
  cbn [replace_fuel append].
  change (String a (p ++ x)) with (String a p ++ x).
  rewrite is_prefix_self; cbn [negb andb String.eqb].
  now rewrite drop_str_app.
Qed.

Lemma team_members_for_shift_spec_witness :
  (get_team_members_for_shift members_sheet "Shift A" = None <->
   exists m, In m members_sheet /\ member_raises m = true) /\
  get_team_members_for_shift members_sheet "Shift A" = Some [Str "Ana"; Str "Cy"; Str "Dee"] /\
  [Str "Ana"; Str "Cy"; Str "Dee"] = map member_name (filter (member_listed "Shift A") members_sheet).
Proof.
  destruct (team_members_for_shift_spec members_sheet "Shift A") as [H1 H2].
  assert (E : get_team_members_for_shift members_sheet "Shift A" = Some [Str "Ana"; Str "Cy"; Str "Dee"])
    by (vm_compute; reflexivity).
  split; [exact H1|split; [exact E|exact (proj1 (H2 _ E))]].
Defined.

Lemma normalize_shift_prefix : forall x, normalize_shift ("Shift " ++ x) = normalize_shift x.
Proof. intros x; unfold normalize_shift; rewrite replace_empty_prefix; [reflexivity|discriminate]. Qed.

(** [get_team_members_for_shift] gives the same answer for the selected
    shift "Shift X" as for "X": the word "Shift " in front of the
    selection is removed before the comparison. *)
Theorem team_members_shift_prefix : forall members x,
  get_team_members_for_shift members ("Shift " ++ x) = get_team_members_for_shift members x.
Proof.
  intros members x; rewrite !team_members_cases.
  destruct (existsb member_raises members); [reflexivity|].
  do 2 f_equal; apply filter_ext; intros m; unfold member_listed.
  now rewrite normalize_shift_prefix.
Qed.

(** * Attendance records *)

Lemma str_memb_In : forall x l, Attendance.str_memb x l = true <-> In x l.
Proof.
  intros x l; unfold Attendance.str_memb; rewrite existsb_exists; split.
  - intros [y [Hy E]]; apply String.eqb_eq in E; now subst.
  - intros H; exists x; split; auto; apply String.eqb_refl.
Qed.

Lemma In_str_set : forall x l, In x (Attendance.str_set l) <-> In x l.
Proof.
  intros x l; induction l as [|y l IH]; cbn [Attendance.str_set]; [reflexivity|].
  destruct (Attendance.str_memb y l) eqn:E; cbn [In]; rewrite IH; [|reflexivity].
  apply str_memb_In in E; split; [auto|intros [<-|H]; auto].
Qed.

Lemma NoDup_str_set : forall l, NoDup (Attendance.str_set l).
Proof.
  induction l as [|y l IH]; cbn [Attendance.str_set]; [constructor|].
  destruct (Attendance.str_memb y l) eqn:E; auto.
  constructor; auto; rewrite In_str_set; intros H; apply str_memb_In in H; congruence.
Qed.

Lemma str_set_NoDup : forall l, NoDup l -> Attendance.str_set l = l.
Proof.
  intros l H; induction H as [|y l Hy H IH]; cbn [Attendance.str_set]; auto.
  destruct (Attendance.str_memb y l) eqn:E; [apply str_memb_In in E; contradiction|].
  now rewrite IH.
Qed.

(** The rows [record_attendance] writes: one per distinct member of
    [present_members + absent_members] (the set removes repeats), each
    carrying the date and shift given, with status "Present" when the
    member is in [present_members] and "Absent" otherwise.  It returns
    [False] exactly when both lists are empty (nothing is written) or
    opening the sheet or appending raises. *)
Theorem record_attendance_rows : forall ok shift present absent date,
  (Console.record_attendance ok shift present absent date = None <->
     ok = false \/ (present ++ absent)%list = []) /\
  forall recs, Console.record_attendance ok shift present absent date = Some recs ->
    ok = true /\
    NoDup (map record_member recs) /\
    (forall m, In m (map record_member recs) <-> In m (present ++ absent)%list) /\
    (forall d m sh st, In (d, m, sh, st) recs ->
       d = date /\ sh = shift /\ st = if Attendance.str_memb m present then "Present" else "Absent").
Proof.
  intros ok shift present absent date.
  assert (Hm : map record_member (Attendance.attendance_records date shift present absent) =
               Attendance.str_set (present ++ absent)).
  { unfold Attendance.attendance_records; rewrite map_map; apply map_id. }
  unfold Console.record_attendance; destruct ok;
    [|split; [split; [intros _; left; reflexivity|reflexivity]|intros recs H; discriminate]].
  split.
  - destruct (Attendance.attendance_records date shift present absent) as [|r rs] eqn:E.
    + split; [intros _; right|reflexivity].
      destruct (present ++ absent)%list as [|x l] eqn:Ep; auto.
      assert (Hx : In x (map record_member [])) by (rewrite Hm, In_str_set; now left).
      destruct Hx.
    + split; [discriminate|].
      intros [Hp|Hp]; [discriminate|].
      rewrite Hp in Hm; simpl in Hm; discriminate.
  - intros recs Hr.
    assert (Hr' : Attendance.attendance_records date shift present absent = recs)
      by (destruct (Attendance.attendance_records date shift present absent); congruence).
    subst recs; rewrite Hm; split; [reflexivity|].
    split; [apply NoDup_str_set|split; [intros m; apply In_str_set|]].
    intros d m sh st H; unfold Attendance.attendance_records in H.
    apply in_map_iff in H as [m' [E _]]; injection E as <- <- <- <-; auto.
Qed.

Lemma record_attendance_rows_witness :
  (Console.record_attendance false "Shift A" ["Ben"; "Cy"] ["Ana"] "2026-10-16" = None <->
   false = false \/ (["Ben"; "Cy"] ++ ["Ana"])%list = []) /\
  NoDup (map record_member [("2026-10-16", "Ben", "Shift A", "Present");
                            ("2026-10-16", "Cy", "Shift A", "Present");
                            ("2026-10-16", "Ana", "Shift A", "Absent")]).
Proof.
  split.
  - exact (proj1 (record_attendance_rows false "Shift A" ["Ben"; "Cy"] ["Ana"] "2026-10-16")).
  - apply (proj2 (record_attendance_rows true "Shift A" ["Ben"; "Cy"] ["Ana"] "2026-10-16")).
    vm_compute; reflexivity.
Defined.

Lemma accept_members : forall team expected line l,
  Attendance.check_absent_input team expected line = Attendance.Accept l ->
  List.length l = expected /\ forall m, In m l -> In m team.
Proof.
  intros team expected line l; unfold Attendance.check_absent_input.
  destruct (String.eqb (Attendance.strip line) ""); [discriminate|].
  destruct (Attendance.parse_indices (Attendance.strip line)) as [idx|]; [|discriminate].
  destruct (Nat.ltb (List.length idx) expected) eqn:E1; [discriminate|].
  destruct (Nat.ltb expected (List.length idx)) eqn:E2; [discriminate|].
  destruct (forallb _ idx) eqn:E3; [|discriminate].
  intros H; injection H as <-; split.
  - rewrite length_map; apply Nat.ltb_ge in E1; apply Nat.ltb_ge in E2; lia.
  - intros m Hm; apply in_map_iff in Hm as [i [<- Hi]].
    rewrite forallb_forall in E3; specialize (E3 i Hi).
    apply andb_true_iff in E3 as [E3 E4]; apply Z.leb_le in E3; apply Z.ltb_lt in E4.
    apply nth_In; lia.
Qed.

(** An answer the console accepts at step 3 names exactly the expected
    number of entries (possibly repeated), each of them a member of the
    listed roster (the numbers it gives are all between 1 and the roster
    size). *)
Theorem absent_answer_accepted : forall team expected line l,
  Attendance.check_absent_input team expected line = Attendance.Accept l ->
  List.length l = expected /\ forall m, In m l -> In m team.
Proof. exact accept_members. Qed.

Lemma absent_answer_accepted_witness :
  List.length ["Ana"; "Cy"] = 2%nat /\ forall m, In m ["Ana"; "Cy"] -> In m Attendance.roster.
Proof. apply (absent_answer_accepted Attendance.roster 2 " 1, 3 "); vm_compute; reflexivity. Defined.

(** * The Streamlit attendance and detape forms *)

Lemma records_of_NoDup : forall date shift present absent,
  NoDup (present ++ absent)%list ->
  Attendance.attendance_records date shift present absent =
  map (fun m => (date, m, shift, if Attendance.str_memb m present then "Present" else "Absent"))
      (present ++ absent)%list.
Proof. intros; unfold Attendance.attendance_records; now rewrite str_set_NoDup. Qed.

Lemma length_remove_absent : forall team absent,
  NoDup team -> NoDup absent -> incl absent team ->
  (List.length (filter (fun m => negb (Attendance.str_memb m absent)) team) + List.length absent)%nat =
  List.length team.
Proof.
  intros team absent Ht Ha Hi.
  rewrite <- (length_filter_negb (fun m => negb (Attendance.str_memb m absent)) team).
  f_equal.
  assert (Hf : forall m, In m (filter (fun x => negb (negb (Attendance.str_memb x absent))) team) <->
                         In m absent).
  { intros m; rewrite filter_In, negb_involutive, str_memb_In; split; [tauto|auto]. }
  apply Nat.le_antisymm; apply NoDup_incl_length; auto.
  - intros m; apply Hf.
  - apply NoDup_filter; auto.
  - intros m; apply Hf.
Qed.

Lemma length_filter_map : forall {A B} (p : B -> bool) (f : A -> B) l,
  List.length (filter p (map f l)) = List.length (filter (fun x => p (f x)) l).
Proof.
  intros A B p f l; induction l as [|x l IH]; cbn [map filter]; auto.
  destruct (p (f x)); cbn [List.length]; auto.
Qed.

Lemma filter_all : forall {A} (p : A -> bool) l,
  (forall x, In x l -> p x = true) -> filter p l = l.
Proof.
  intros A p l H; induction l as [|x l IH]; cbn [filter]; auto.
  rewrite (H x (or_introl eq_refl)), IH; auto; intros; apply H; now right.
Qed.

Lemma filter_none : forall {A} (p : A -> bool) l,
  (forall x, In x l -> p x = false) -> filter p l = [].
Proof.
  intros A p l H; induction l as [|x l IH]; cbn [filter]; auto.
  rewrite (H x (or_introl eq_refl)), IH; auto; intros; apply H; now right.
Qed.

(** Submitting the attendance form: it is refused exactly when fewer
    than the full team are present and the number of absentees selected
    differs from the number missing; a submission that is not refused
    fails ("Failed to record attendance") when writing to the sheet
    raises.  With a roster without repeats, a
    selection of the right size, without repeats, taken from the roster is
    recorded with one row per roster member: the selected members
    "Absent", as many as are missing, the others "Present".  At full
    strength the selection is ignored and every roster member is recorded
    present. *)
Theorem attendance_form_submit :
  (forall ok date shift team np absent,
     Console.submit_attendance_form ok date shift team np absent = Console.FormRejected <->
     (np < Attendance.FULL_TEAM_SIZE /\ List.length absent <> Attendance.FULL_TEAM_SIZE - np)%nat) /\
  (forall date shift team np absent,
     ~ (np < Attendance.FULL_TEAM_SIZE /\ List.length absent <> Attendance.FULL_TEAM_SIZE - np)%nat ->
     Console.submit_attendance_form false date shift team np absent = Console.FormFailed) /\
  (forall date shift team np absent,
     (np < Attendance.FULL_TEAM_SIZE)%nat -> List.length absent = (Attendance.FULL_TEAM_SIZE - np)%nat ->
     NoDup team -> NoDup absent -> incl absent team -> team <> [] ->
     exists recs, Console.submit_attendance_form true date shift team np absent = Console.FormRecorded recs /\
       Permutation (map record_member recs) team /\
       List.length (filter (fun r => String.eqb (record_status r) "Absent") recs) =
         (Attendance.FULL_TEAM_SIZE - np)%nat /\
       List.length (filter (fun r => String.eqb (record_status r) "Present") recs) =
         (List.length team - (Attendance.FULL_TEAM_SIZE - np))%nat /\
       (forall m, In m absent -> In (date, m, shift, "Absent") recs)) /\
  (forall date shift team np absent,
     (Attendance.FULL_TEAM_SIZE <= np)%nat -> team <> [] ->
     Console.submit_attendance_form true date shift team np absent =
     Console.FormRecorded (map (fun m => (date, m, shift, "Present")) (Attendance.str_set team))).
Proof.
  split; [|split; [|split]].
  - intros ok date shift team np absent; unfold Console.submit_attendance_form.
    destruct (Nat.ltb np Attendance.FULL_TEAM_SIZE) eqn:E1; cbn [andb].
    + destruct (Nat.eqb (List.length absent) (Attendance.FULL_TEAM_SIZE - np)) eqn:E2; cbn [negb].
      * apply Nat.eqb_eq in E2; split; [|lia].
        destruct (Console.record_attendance _ _ _ _ _); discriminate.
      * apply Nat.eqb_neq in E2; apply Nat.ltb_lt in E1; split; auto.
    + apply Nat.ltb_ge in E1; split; [|lia].
      destruct (Console.record_attendance _ _ _ _ _); discriminate.
  - intros date shift team np absent Hn; unfold Console.submit_attendance_form.
    destruct (Nat.ltb np Attendance.FULL_TEAM_SIZE) eqn:E1; cbn [andb]; [|reflexivity].
    destruct (Nat.eqb (List.length absent) (Attendance.FULL_TEAM_SIZE - np)) eqn:E2; cbn [negb];
      [reflexivity|].
    apply Nat.eqb_neq in E2; apply Nat.ltb_lt in E1; tauto.
  - intros date shift team np absent Hnp Hlen Ht Ha Hi Hne.
    unfold Console.submit_attendance_form.
    apply Nat.ltb_lt in Hnp as Hnp'; rewrite Hnp'; cbn [andb].
    rewrite Hlen, Nat.eqb_refl; cbn [negb].
    pose proof (length_remove_absent team absent Ht Ha Hi) as Hcount.
    destruct team as [|t0 ts]; [congruence|].
    set (present := filter (fun m => negb (Attendance.str_memb m absent)) (t0 :: ts)) in *.
    assert (Hnd : NoDup (present ++ absent)%list).
    { apply NoDup_app; auto; [apply NoDup_filter; auto|].
      intros m Hp Hab; unfold present in Hp; apply filter_In in Hp as [_ Hp].
      apply str_memb_In in Hab; now rewrite Hab in Hp. }
    assert (Hst : forall m, In m absent -> Attendance.str_memb m present = false).
    { intros m Hm; destruct (Attendance.str_memb m present) eqn:E; auto.
      apply str_memb_In in E; unfold present in E; apply filter_In in E as [_ E].
      apply str_memb_In in Hm; now rewrite Hm in E. }
    assert (Hsp : forall m, In m present -> Attendance.str_memb m present = true)
      by (intros; now apply str_memb_In).
    unfold Console.record_attendance; rewrite records_of_NoDup by exact Hnd.
    assert (Hpa : (present ++ absent)%list <> []).
    { intros E; apply app_eq_nil in E as [_ E]; rewrite E in Hlen; cbn [List.length] in Hlen;
        unfold Attendance.FULL_TEAM_SIZE in *; lia. }
    destruct (map _ (present ++ absent)%list) as [|r0 rs] eqn:Em.
    { apply map_eq_nil in Em; contradiction. }
    rewrite <- Em; eexists; split; [reflexivity|].
    split; [|split; [|split]].
    + rewrite map_map; cbn [record_member]; rewrite map_id.
      apply NoDup_Permutation; auto.
      intros m; rewrite in_app_iff; split.
      * intros [Hm|Hm]; [unfold present in Hm; now apply filter_In in Hm as [Hm _]|now apply Hi].
      * intros Hm; destruct (Attendance.str_memb m absent) eqn:E; [right; now apply str_memb_In|].
        left; unfold present; apply filter_In; rewrite E; auto.
    + rewrite length_filter_map; cbn [record_status].
      rewrite filter_app, filter_none, filter_all; auto.
      * intros m Hm; now rewrite Hst.
      * intros m Hm; now rewrite Hsp.
    + rewrite length_filter_map; cbn [record_status].
      rewrite filter_app, filter_all, (filter_none _ absent), app_nil_r; [lia| |].
      * intros m Hm; now rewrite Hst.
      * intros m Hm; now rewrite Hsp.
    + intros m Hm; apply in_map_iff; exists m; rewrite Hst by exact Hm; split; auto.
      apply in_app_iff; now right.
  - intros date shift team np absent Hnp Hne; unfold Console.submit_attendance_form.
    apply Nat.ltb_ge in Hnp; rewrite Hnp; cbn [andb].
    destruct team as [|t0 ts]; [congruence|].
    rewrite filter_all by (intros; reflexivity).
    unfold Console.record_attendance, Attendance.attendance_records; rewrite app_nil_r.
    rewrite (map_ext_in _ (fun m => (date, m, shift, "Present"))).
    2: { intros m Hm; assert (E : Attendance.str_memb m (t0 :: ts) = true)
           by (apply str_memb_In, In_str_set, Hm); now rewrite E. }
    destruct (map _ (Attendance.str_set (t0 :: ts))) as [|r0 rs] eqn:Em; [|reflexivity].
    apply map_eq_nil in Em; assert (Hx : In t0 (Attendance.str_set (t0 :: ts)))
      by (apply In_str_set; now left).
    now rewrite Em in Hx.
Qed.

Lemma attendance_form_submit_witness :
  Console.submit_attendance_form true "2026-10-16" "Shift A" Attendance.roster 1 ["Ana"] =
    Console.FormRejected /\
  Console.submit_attendance_form false "2026-10-16" "Shift A" Attendance.roster 1 ["Ana"; "Cy"] =
    Console.FormFailed /\
  (exists recs, Console.submit_attendance_form true "2026-10-16" "Shift A" Attendance.roster 1 ["Ana"; "Cy"] =
     Console.FormRecorded recs /\
     Permutation (map record_member recs) Attendance.roster /\
     List.length (filter (fun r => String.eqb (record_status r) "Absent") recs) = 2%nat /\
     List.length (filter (fun r => String.eqb (record_status r) "Present") recs) = 1%nat /\
     (forall m, In m ["Ana"; "Cy"] -> In ("2026-10-16", m, "Shift A", "Absent") recs)) /\
  Console.submit_attendance_form true "2026-10-16" "Shift A" Attendance.roster 3 ["Ana"] =
  Console.FormRecorded (map (fun m => ("2026-10-16", m, "Shift A", "Present"))
                            (Attendance.str_set Attendance.roster)).
Proof.
  destruct attendance_form_submit as [H1 [H4 [H2 H3]]].
  split; [|split; [|split]].
  - apply H1; split; [unfold Attendance.FULL_TEAM_SIZE; lia|discriminate].
  - apply H4; cbn; unfold Attendance.FULL_TEAM_SIZE; lia.
  - apply (H2 "2026-10-16" "Shift A" Attendance.roster 1%nat ["Ana"; "Cy"]).
    + unfold Attendance.FULL_TEAM_SIZE; lia.
    + reflexivity.
    + repeat constructor; simpl; intuition discriminate.
    + repeat constructor; simpl; intuition discriminate.
    + intros m Hm; simpl in *; intuition.
    + discriminate.
  - apply H3; [unfold Attendance.FULL_TEAM_SIZE; lia|discriminate].
Defined.

Lemma blank_positions : forall (l : list string) k i,
  In i (map fst (filter (fun ic => String.eqb (Attendance.strip (snd ic)) "")
                        (combine (seq k (List.length l)) l))) <->
  (k <= i < k + List.length l)%nat /\ String.eqb (Attendance.strip (nth (i - k) l "")) "" = true.
Proof.
  induction l as [|c l IH]; intros k i; cbn [List.length seq combine filter map].
  - split; [intros []|lia].
  - cbn [snd]; destruct (String.eqb (Attendance.strip c) "") eqn:Ec; cbn [map fst In];
      rewrite IH; split.
    + intros [<-|[H1 H2]]; [rewrite Nat.sub_diag; split; [lia|exact Ec]|].
      split; [lia|]. replace (i - k)%nat with (S (i - S k)) by lia; exact H2.
    + intros [H1 H2]; destruct (Nat.eq_dec i k) as [->|Hne]; [now left|right].
      split; [lia|]. replace (i - k)%nat with (S (i - S k)) in H2 by lia; exact H2.
    + intros [H1 H2]; split; [lia|]. replace (i - k)%nat with (S (i - S k)) by lia; exact H2.
    + intros [H1 H2]; destruct (Nat.eq_dec i k) as [->|Hne].
      * rewrite Nat.sub_diag in H2; cbn [nth] in H2; congruence.
      * split; [lia|]. replace (i - k)%nat with (S (i - S k)) in H2 by lia; exact H2.
Qed.

(** Submitting the detape form: with a quantity of 0 nothing is asked and
    nothing recorded.  Otherwise the form is either refused, listing
    exactly the 1-based numbers of the package-code fields that are blank
    (at least one), or, when no field is blank, recorded as one row
    (date, 1, code) per field, in order, with the code as typed, when
    writing to the sheet succeeds, and reported as failed when it raises. *)
Theorem detape_form_submit :
  (forall ok date codes, Console.submit_detape_form ok date 0 codes = Console.DetapeZero) /\
  (forall ok date num codes, num <> 0%nat ->
     match Console.submit_detape_form ok date num codes with
     | Console.DetapeZero => False
     | Console.DetapeMissing ps =>
         ps <> [] /\
         forall i, In i ps <-> (1 <= i <= List.length codes)%nat /\
                               Attendance.strip (nth (i - 1) codes "") = ""
     | Console.DetapeRecorded recs =>
         ok = true /\ recs = map (fun c => (date, 1%Z, c)) codes /\
         forall c, In c codes -> Attendance.strip c <> ""
     | Console.DetapeFailed =>
         ok = false /\ forall c, In c codes -> Attendance.strip c <> ""
     end).
Proof.
  split; [reflexivity|].
  intros ok date num codes Hn; unfold Console.submit_detape_form.
  apply Nat.eqb_neq in Hn; rewrite Hn.
  destruct (map fst _) as [|p ps] eqn:E.
  - assert (Hnb : forall c, In c codes -> Attendance.strip c <> "").
    { intros c Hc Hb.
      destruct (In_nth codes c "" Hc) as [j [Hj Hjc]].
      assert (Hin : In (S j) (map fst (filter (fun ic => String.eqb (Attendance.strip (snd ic)) "")
                            (combine (seq 1 (List.length codes)) codes)))).
      { apply blank_positions; split; [lia|]. replace (S j - 1)%nat with j by lia.
        rewrite Hjc, Hb; reflexivity. }
      now rewrite E in Hin. }
    destruct ok; auto.
  - split; [discriminate|]; intros i; rewrite <- E, blank_positions, String.eqb_eq; split;
      intros [H1 H2]; split; auto; lia.
Qed.

Lemma detape_form_submit_witness :
  Console.submit_detape_form true "2026-10-16" 0 ["X"] = Console.DetapeZero /\
  match Console.submit_detape_form true "2026-10-16" 3 ["P1"; " "; ""] with
  | Console.DetapeZero => False
  | Console.DetapeMissing ps =>
      ps <> [] /\
      forall i, In i ps <-> (1 <= i <= 3)%nat /\ Attendance.strip (nth (i - 1) ["P1"; " "; ""] "") = ""
  | Console.DetapeRecorded recs =>
      true = true /\ recs = map (fun c => ("2026-10-16", 1%Z, c)) ["P1"; " "; ""] /\
      forall c, In c ["P1"; " "; ""] -> Attendance.strip c <> ""
  | Console.DetapeFailed =>
      true = false /\ forall c, In c ["P1"; " "; ""] -> Attendance.strip c <> ""
  end.
Proof.
  destruct detape_form_submit as [H1 H2]; split; [apply H1|].
  exact (H2 true "2026-10-16" 3%nat ["P1"; " "; ""] ltac:(discriminate)).
Defined.

(** * The console run *)

Lemma shift_loop_ok : forall inputs sh rest,
  Console.shift_loop inputs = Some (sh, rest) ->
  In sh Console.SHIFTS /\ exists pre, inputs = (pre ++ rest)%list.
Proof.
  induction inputs as [|line inputs IH]; intros sh rest H; cbn [Console.shift_loop] in H;
    [discriminate|].
  destruct (Console.read_int line) as [c|].
  - destruct (Z.leb 1 c && Z.leb c 3) eqn:Ec.
    + injection H as <- <-; split; [|now exists [line]].
      apply andb_true_iff in Ec as [E1 E2]; apply Z.leb_le in E1; apply Z.leb_le in E2.
      assert (Hc : c = 1%Z \/ c = 2%Z \/ c = 3%Z) by lia.
      destruct Hc as [-> | [-> | ->]]; cbn; auto.
    + destruct (IH _ _ H) as [Hs [pre ->]]; split; auto; now exists (line :: pre).
  - destruct (IH _ _ H) as [Hs [pre ->]]; split; auto; now exists (line :: pre).
Qed.

Lemma present_loop_ok : forall inputs n rest,
  Console.present_loop inputs = Some (n, rest) ->
  (n <= Attendance.FULL_TEAM_SIZE)%nat /\ exists pre, inputs = (pre ++ rest)%list.
Proof.
  induction inputs as [|line inputs IH]; intros n rest H; cbn [Console.present_loop] in H;
    [discriminate|].
  destruct (Console.read_int line) as [c|].
  - destruct (Z.leb 0 c && Z.leb c (Z.of_nat Attendance.FULL_TEAM_SIZE)) eqn:Ec.
    + injection H as <- <-; split; [|now exists [line]].
      apply andb_true_iff in Ec as [E1 E2]; apply Z.leb_le in E1; apply Z.leb_le in E2; lia.
    + destruct (IH _ _ H) as [Hs [pre ->]]; split; auto; now exists (line :: pre).
  - destruct (IH _ _ H) as [Hs [pre ->]]; split; auto; now exists (line :: pre).
Qed.

Lemma absent_loop_rest_ok : forall team expected inputs l rest,
  Console.absent_loop_rest team expected inputs = Some (l, rest) ->
  List.length l = expected /\ (forall m, In m l -> In m team) /\
  exists pre, inputs = (pre ++ rest)%list.
Proof.
  intros team expected; induction inputs as [|line inputs IH]; intros l rest H;
    cbn [Console.absent_loop_rest] in H; [discriminate|].
  destruct (Attendance.check_absent_input team expected line) as [msg|l'] eqn:E.
  - destruct (IH _ _ H) as [H1 [H2 [pre ->]]]; repeat split; auto; now exists (line :: pre).
  - injection H as <- <-; destruct (accept_members _ _ _ _ E); repeat split; auto.
    now exists [line].
Qed.

Lemma manual_loop_ok : forall expected inputs acc l rest,
  (List.length acc <= expected)%nat ->
  Console.manual_loop expected acc inputs = Some (l, rest) ->
  List.length l = expected /\
  (forall n, In n l -> In n acc \/ (n <> "" /\ exists line, In line inputs /\ n = Attendance.strip line)) /\
  exists pre, inputs = (pre ++ rest)%list.
Proof.
  intros expected; induction inputs as [|line inputs IH]; intros acc l rest Hle H;
    cbn [Console.manual_loop] in H.
  - destruct (Nat.leb expected (List.length acc)) eqn:E; [|discriminate].
    injection H as <- <-; apply Nat.leb_le in E; repeat split; auto; [lia|now exists []].
  - destruct (Nat.leb expected (List.length acc)) eqn:E.
    + injection H as <- <-; apply Nat.leb_le in E; repeat split; auto; [lia|now exists []].
    + apply Nat.leb_gt in E.
      destruct (String.eqb (Attendance.strip line) "") eqn:Eb.
      * destruct (IH _ _ _ Hle H) as [H1 [H2 [pre ->]]]; repeat split; auto.
        -- intros n Hn; destruct (H2 n Hn) as [A|[A [x [Hx Ex]]]]; auto.
           right; split; auto; exists x; split; auto; now right.
        -- now exists (line :: pre).
      * assert (Hle' : (List.length (acc ++ [Attendance.strip line]) <= expected)%nat)
          by (rewrite length_app; cbn [List.length]; lia).
        destruct (IH _ _ _ Hle' H) as [H1 [H2 [pre ->]]]; repeat split; auto.
        -- intros n Hn; destruct (H2 n Hn) as [A|[A [x [Hx Ex]]]].
           ++ apply in_app_iff in A as [A|[<-|[]]]; auto.
              right; split; [now apply String.eqb_neq|]; exists line; split; auto; now left.
           ++ right; split; auto; exists x; split; auto; now right.
        -- now exists (line :: pre).
Qed.

(** Without a roster, step 3 of the console collects exactly the expected
    number of absentee names, skipping blank answers: every name is the
    stripped text of an input line and is not empty. *)
Theorem manual_absentees : forall expected inputs l rest,
  Console.manual_loop expected [] inputs = Some (l, rest) ->
  List.length l = expected /\
  forall n, In n l -> n <> "" /\ exists line, In line inputs /\ n = Attendance.strip line.
Proof.
  intros expected inputs l rest H.
  destruct (manual_loop_ok expected inputs [] l rest ltac:(cbn; lia) H) as [H1 [H2 _]].
  split; auto; intros n Hn; destruct (H2 n Hn) as [[]|A]; exact A.
Qed.

Lemma manual_absentees_witness :
  List.length ["Ana"; "Cy"] = 2%nat /\
  forall n, In n ["Ana"; "Cy"] -> n <> "" /\
    exists line, In line [" Ana"; "  "; "Cy "; "yes"] /\ n = Attendance.strip line.
Proof.
  apply (manual_absentees 2 [" Ana"; "  "; "Cy "; "yes"] ["Ana"; "Cy"] ["yes"]).
  vm_compute; reflexivity.
Defined.

(** A console run writes attendance only after a confirmation line that
    reads "yes" or "y" (any case, blanks ignored), and never writes
    nothing, and writes only when the sheet can be written: the rows
    written carry the run's date, one of the three
    shifts, and status "Present" or "Absent"; when the roster of that
    shift is not empty, every member written is on it. *)
Theorem console_run_records : forall ok date roster_of inputs recs,
  Console.run_console ok date roster_of inputs = Some recs ->
  ok = true /\ exists sh, In sh Console.SHIFTS /\ recs <> [] /\
    (exists confirm, In confirm inputs /\
       (Console.lower (Attendance.strip confirm) = "yes" \/ Console.lower (Attendance.strip confirm) = "y")) /\
    (forall d m s st, In (d, m, s, st) recs ->
       d = date /\ s = sh /\ (st = "Present" \/ st = "Absent") /\
       (roster_of sh <> [] -> In m (roster_of sh))).
Proof.
  intros ok date roster_of inputs recs H; unfold Console.run_console in H.
  destruct (Console.shift_loop inputs) as [[sh in1]|] eqn:E1; [|discriminate].
  destruct (shift_loop_ok _ _ _ E1) as [Hsh [pre1 ->]].
  destruct (Console.present_loop in1) as [[np in2]|] eqn:E2; [|discriminate].
  destruct (present_loop_ok _ _ _ E2) as [_ [pre2 ->]].
  set (absent := if Nat.ltb np Attendance.FULL_TEAM_SIZE then _ else _) in H.
  assert (Ha : forall ab in3, absent = Some (ab, in3) ->
            (exists pre, in2 = (pre ++ in3)%list) /\
            (roster_of sh <> [] -> forall m, In m ab -> In m (roster_of sh))).
  { intros ab in3 Ea; unfold absent in Ea.
    destruct (Nat.ltb np Attendance.FULL_TEAM_SIZE).
    - destruct (roster_of sh) as [|t0 ts].
      + destruct (manual_loop_ok _ _ [] _ _ ltac:(cbn; lia) Ea) as [_ [_ Hp]]; split; auto.
        intros C; now contradiction C.
      + destruct (absent_loop_rest_ok _ _ _ _ _ Ea) as [_ [Hm Hp]]; auto.
    - injection Ea as <- <-; split; [now exists []|intros _ m []]. }
  destruct absent as [[ab in3]|]; [|discriminate].
  destruct (Ha ab in3 eq_refl) as [[pre3 ->] Hab]; clear Ha.
  destruct in3 as [|confirm in4]; [discriminate|].
  destruct (String.eqb (Console.lower (Attendance.strip confirm)) "yes" ||
            String.eqb (Console.lower (Attendance.strip confirm)) "y") eqn:Ec; [|discriminate].
  unfold Console.record_attendance in H.
  destruct ok; [split; [reflexivity|]|discriminate].
  set (present := match roster_of sh with _ :: _ => _ | [] => _ end) in H.
  destruct (Attendance.attendance_records date sh present ab) as [|r0 rs] eqn:Er; [discriminate|].
  injection H as <-.
  exists sh; split; [exact Hsh|split; [discriminate|split]].
  - exists confirm; split.
    + rewrite !in_app_iff; right; right; right; now left.
    + apply orb_true_iff in Ec as [Ec|Ec]; apply String.eqb_eq in Ec; auto.
  - rewrite <- Er; intros d m s st Hin; unfold Attendance.attendance_records in Hin.
    apply in_map_iff in Hin as [m' [E Hm']]; injection E as <- <- <- <-.
    split; [auto|split; [auto|split]].
    + destruct (Attendance.str_memb m' present); auto.
    + intros Hne; apply In_str_set, in_app_iff in Hm' as [Hm'|Hm'].
      * unfold present in Hm'; destruct (roster_of sh) as [|t0 ts]; [congruence|].
        now apply filter_In in Hm' as [Hm' _].
      * now apply Hab.
Qed.

Lemma console_run_records_witness :
  true = true /\ exists sh, In sh Console.SHIFTS /\
    [("2026-10-16", "Ben", "Shift B", "Present"); ("2026-10-16", "Ana", "Shift B", "Absent");
     ("2026-10-16", "Cy", "Shift B", "Absent")] <> [] /\
    (exists confirm, In confirm ["0"; "2"; "x"; "1"; "1, 3"; " Y "] /\
       (Console.lower (Attendance.strip confirm) = "yes" \/ Console.lower (Attendance.strip confirm) = "y")) /\
    (forall d m s st, In (d, m, s, st)
       [("2026-10-16", "Ben", "Shift B", "Present"); ("2026-10-16", "Ana", "Shift B", "Absent");
        ("2026-10-16", "Cy", "Shift B", "Absent")] ->
       d = "2026-10-16" /\ s = sh /\ (st = "Present" \/ st = "Absent") /\
       (Attendance.roster <> [] -> In m Attendance.roster)).
Proof.
  apply (console_run_records true "2026-10-16" (fun _ => Attendance.roster)
           ["0"; "2"; "x"; "1"; "1, 3"; " Y "]).
  vm_compute; reflexivity.
Defined.
